(** * AgentLoop: the action executor ([agentloop/actions/executor.py])

    A shallow embedding of [ActionExecutor] and its four handlers, with the
    external collaborators (schema constructors, HTTP client, HTML parser,
    subprocess facility, filesystem) taken as oracles, followed by the
    properties of the dispatch boundary and of each handler. *)

From Stdlib Require Import ZArith NArith List String Ascii DecimalString Bool Lia.
From stdpp Require Import gmap strings list fin_maps.

Local Open Scope Z_scope.
Set Warnings "-register-all".

(** ** Python text

    A Python [str] is a sequence of Unicode code points.  Literals of the
    source are ASCII and are injected with [lit]. *)

Module PyStr.

Abbreviation pystr := (list N).

Definition lit (s : string) : list N :=
  map N_of_ascii (list_ascii_of_string s).

(** [sub in s] of Python, as a proposition. *)
Definition contains (sub s : list N) : Prop :=
  exists pre post : list N, s = pre ++ sub ++ post.

(** [bool(s)]: a string, like a list, is truthy when it is not empty. *)
Definition truthy {A} (s : list A) : bool :=
  match s with [] => false | _ :: _ => true end.

(** [str.isspace] on one code point (the table of CPython's
    [_PyUnicode_IsWhitespace]). *)
Definition isspace (c : N) : bool :=
  ((9 <=? c) && (c <=? 13) || (28 <=? c) && (c <=? 32)
   || (c =? 133) || (c =? 160) || (c =? 5760)
   || (8192 <=? c) && (c <=? 8202)
   || (c =? 8232) || (c =? 8233) || (c =? 8239) || (c =? 8287)
   || (c =? 12288))%N.

Fixpoint lstrip (s : list N) : list N :=
  match s with
  | [] => []
  | c :: s' => if isspace c then lstrip s' else s
  end.

Definition rstrip (s : list N) : list N := rev (lstrip (rev s)).

(** [s.strip()] *)
Definition strip (s : list N) : list N := rstrip (lstrip s).

(** [str(n)] for an [int]. *)
Definition str_of_int (z : Z) : list N :=
  lit (NilZero.string_of_int (Z.to_int z)).

(** [sep.join(l)] *)
Fixpoint join (sep : list N) (l : list (list N)) : list N :=
  match l with
  | [] => []
  | [x] => x
  | x :: l' => x ++ sep ++ join sep l'
  end.

(** [s.split(sep)] for a one-character separator: the pieces between
    the separators, empty pieces included. *)
Fixpoint split (sep : N) (s : list N) : list (list N) :=
  match s with
  | [] => [[]]
  | c :: s' =>
      if (c =? sep)%N then [] :: split sep s'
      else match split sep s' with
           | [] => [[c]]
           | p :: ps => (c :: p) :: ps
           end
  end.

(** UTF-8 encoding of one code point; lone surrogates and values past
    U+10FFFF have none. *)
Definition utf8_char (c : N) : option (list N) :=
  (if c <? 128 then Some [c]
   else if c <? 2048 then Some [192 + c / 64; 128 + c mod 64]
   else if (55296 <=? c) && (c <=? 57343) then None
   else if c <? 65536 then
     Some [224 + c / 4096; 128 + (c / 64) mod 64; 128 + c mod 64]
   else if c <? 1114112 then
     Some [240 + c / 262144; 128 + (c / 4096) mod 64;
           128 + (c / 64) mod 64; 128 + c mod 64]
   else None)%N.

(** [s.encode("utf-8")]: [None] stands for [UnicodeEncodeError]. *)
Fixpoint encode_utf8 (s : list N) : option (list N) :=
  match s with
  | [] => Some []
  | c :: s' =>
      match utf8_char c, encode_utf8 s' with
      | Some b, Some bs => Some (b ++ bs)
      | _, _ => None
      end
  end.

End PyStr.
Import PyStr.

(** ** Paths ([pathlib.Path], POSIX flavour) *)

Module PosixPath.

(** A parsed path: the root (empty, one slash or two slashes) and the
    components after it. *)
Record Path := mkPath { root : pystr; tail : list pystr }.

Definition sep : N := 47.

(** [s[:1] == "/"] *)
Definition starts_with_sep (s : pystr) : bool :=
  match s with
  | c :: _ => (c =? sep)%N
  | [] => false
  end.

(** [posixpath.splitroot]: exactly two leading slashes are kept as a root
    of their own, any other number of them is the root [/]. *)
Definition splitroot (s : pystr) : pystr * pystr :=
  if negb (starts_with_sep s) then ([], s)
  else if negb (starts_with_sep (List.tl s))
          || starts_with_sep (List.tl (List.tl s))
  then ([sep], List.tl s)
  else ([sep; sep], List.tl (List.tl s)).

(** A component is kept unless it is empty or a single dot. *)
Definition kept (x : pystr) : bool :=
  match x with
  | [] => false
  | [46%N] => false
  | _ => true
  end.

(** [Path(s)] *)
Definition Path_of (s : pystr) : Path :=
  let '(rt, rel) := splitroot s in
  mkPath rt (List.filter kept (split sep rel)).

(** [p.name]: the last component, or the empty string when there is none. *)
Definition name (p : Path) : pystr := List.last (tail p) [].

(** [str(p)] *)
Definition Path_str (p : Path) : pystr :=
  match root p ++ join [sep] (tail p) with
  | [] => lit "."
  | s => s
  end.

(** [posixpath.join(a, b)] *)
Definition posix_join (a b : pystr) : pystr :=
  if starts_with_sep b then b
  else if negb (truthy a) || (List.last a 0 =? sep)%N then a ++ b
  else a ++ [sep] ++ b.

(** [p / key]: the segments are joined and parsed again. *)
Definition truediv (p : Path) (key : pystr) : Path :=
  Path_of (posix_join (Path_str p) key).

End PosixPath.
Import PosixPath.

(** ** Data model *)

(** The Python values that travel through parameter mappings, outputs and
    metadata. *)
Inductive PyVal : Type :=
| PyNone
| PyBool (b : bool)
| PyInt (z : Z)
| PyStr (s : pystr)
| PyList (l : list PyVal)
| PyDict (d : list (string * PyVal)).

(** Modelled from the spec: [ActionType] is declared in [core.schemas],
    which is not part of this file.  The four known kinds, and [OtherKind]
    for any other value a caller passes, carried as its [str()] rendering
    (the identifier of the unknown kind). *)
Inductive ActionType : Type :=
| SEARCH_WEB
| RUN_CODE
| WRITE_FILE
| FINISH
| OtherKind (ident : pystr).

(** Modelled from the spec: the result envelope of [core.schemas].  The
    fields a constructor call leaves out are [None]. *)
Record ActionResult := mkActionResult {
  action : ActionType;
  success : bool;
  output : PyVal;
  error : option pystr;
  metadata : option (gmap string PyVal)
}.

(** Modelled from the spec: the per-action input structures of
    [core.schemas]. *)
Record SearchWebInput := mkSearchWebInput { query : pystr; num_results : Z }.
Record RunCodeInput := mkRunCodeInput { code : pystr; timeout : Z }.
Record WriteFileInput := mkWriteFileInput { filename : pystr; content : pystr }.
Record FinishInput := mkFinishInput { summary : pystr; artifacts : list pystr }.

(** What a schema constructor does with a raw parameter mapping: it builds
    the structure or raises a validation error with a description. *)
Inductive Validated (A : Type) : Type :=
| Valid (a : A)
| Invalid (descr : pystr).
Arguments Valid {A} a.
Arguments Invalid {A} descr.

(** ** Faults

    The exceptions below [Exception].  The handlers tell one class apart,
    [subprocess.TimeoutExpired]; [Exception] stands for every other one.
    [exc_str] is [str(e)]. *)
Inductive ExcClass : Type := TimeoutExpired | Exception.

Record Fault := mkFault { exc_class : ExcClass; exc_str : pystr }.

Inductive Raises (A : Type) : Type :=
| Return (a : A)
| Raise (e : Fault).
Arguments Return {A} a.
Arguments Raise {A} e.

(** ** The world outside the executor *)

(** What a call leaves behind: the requests sent, the calls of
    [subprocess.run] (whether or not a child came to exist), the files
    opened for writing and the faults raised, newest first. *)
Inductive Event : Type :=
| EvPost (url q : pystr)
| EvSpawn (argv : list pystr) (tmo : Z) (cwd : pystr)
| EvWrite (path : pystr)
| EvRaise (e : Fault).

(** The files on disk (path to bytes) and the trace of events. *)
Record World := mkWorld {
  files : gmap (list N) (list N);
  trace : list Event
}.

Definition log (ev : Event) (w : World) : World :=
  mkWorld (files w) (ev :: trace w).

Definition set_file (path : pystr) (bytes : list N) (w : World) : World :=
  mkWorld (<[path := bytes]> (files w)) (trace w).

(** An HTTP response as [requests] gives it. *)
Record Response := mkResponse {
  status_code : Z;
  reason : pystr;
  resp_url : pystr;
  text : pystr
}.

(** An element of the parsed page: its text nodes and its [href]
    attribute, if any. *)
Record Tag := mkTag { strings_of : list pystr; href : option pystr }.

(** A [div] of class [result]: the first [a.result__a] and the first
    [a.result__snippet] inside it, if any. *)
Record ResultDiv := mkResultDiv {
  result__a : option Tag;
  result__snippet : option Tag
}.

(** [subprocess.CompletedProcess] with captured text output. *)
Record CompletedProcess := mkCompletedProcess {
  stdout : pystr;
  stderr : pystr;
  returncode : Z
}.

(** The collaborators the executor calls and does not implement: the
    schema constructors, the HTTP client, the HTML parser, the interpreter
    run as a child process and the filesystem's refusals. *)
Record Externals := mkExternals {
  new_SearchWebInput : gmap string PyVal -> Validated SearchWebInput;
  new_RunCodeInput : gmap string PyVal -> Validated RunCodeInput;
  new_WriteFileInput : gmap string PyVal -> Validated WriteFileInput;
  new_FinishInput : gmap string PyVal -> Validated FinishInput;
  (** [requests.post(url, data={"q": q}, headers=..., timeout=10)] *)
  http_post : World -> pystr -> pystr -> Raises Response;
  (** [BeautifulSoup(html, "html.parser").find_all("div", class_="result")] *)
  find_all_result : pystr -> list ResultDiv;
  sys_executable : pystr;
  (** the child process: the files it leaves and how it ends *)
  child : World -> list pystr -> Z -> pystr ->
          gmap (list N) (list N) * Raises CompletedProcess;
  (** opening a path for writing: the fault the filesystem raises, if any *)
  open_fault : World -> pystr -> option pystr
}.

(** ** Computations: a world is threaded, a fault may be raised *)

Definition M (A : Type) : Type := World -> World * Raises A.

Definition ret {A} (a : A) : M A := fun w => (w, Return a).

Definition bind {A B} (m : M A) (k : A -> M B) : M B :=
  fun w =>
    match m w with
    | (w', Return a) => k a w'
    | (w', Raise e) => (w', Raise e)
    end.

(** [raise e]; the fault is recorded in the trace. *)
Definition raise {A} (e : Fault) : M A :=
  fun w => (log (EvRaise e) w, Raise e).

(** [try: body except Exception as e: handler(e)]; every fault of the
    model is an [Exception]. *)
Definition try_except {A} (body : M A) (handler : Fault -> M A) : M A :=
  fun w =>
    match body w with
    | (w', Return a) => (w', Return a)
    | (w', Raise e) => handler e w'
    end.

Declare Scope py_scope.
Delimit Scope py_scope with py.
Notation "x <- m ;; k" := (bind m (fun x => k))
  (at level 100, m at next level, right associativity) : py_scope.
Notation "m ;;; k" := (bind m (fun _ => k))
  (at level 100, right associativity) : py_scope.
Local Open Scope py_scope.

(** ** The executor *)

Record ActionExecutor := mkActionExecutor { output_dir : Path }.

(** [ActionExecutor.__init__]; creating the directory leaves the files of
    the world as they are. *)
Definition ActionExecutor_init (dir : pystr) : ActionExecutor :=
  mkActionExecutor (Path_of dir).

(** [l[:n]] of Python: a negative bound counts from the end. *)
Definition slice_to {A} (n : Z) (l : list A) : list A :=
  if 0 <=? n then firstn (Z.to_nat n) l
  else firstn (length l - Z.to_nat (- n)) l.

(** [elem.get_text(strip=True)]: the text nodes are stripped, the empty
    ones dropped, the rest concatenated. *)
Definition get_text (elem : Tag) : pystr :=
  concat (List.filter truthy (map strip (strings_of elem))).

(** The body of the loop of [_search_web] on one block: the record that is
    appended, if any. *)
Definition result_record (result_div : ResultDiv) : option PyVal :=
  match result__a result_div with
  | Some title_elem =>
      Some (PyDict
        [("title"%string, PyStr (get_text title_elem));
         ("url"%string, PyStr (default [] (href title_elem)));
         ("snippet"%string,
           PyStr (match result__snippet result_div with
                  | Some snippet_elem => get_text snippet_elem
                  | None => []
                  end))])
  | None => None
  end.

(** The loop of [_search_web]: [results] grows by one record for each
    block that has a title link. *)
Definition search_loop (divs : list ResultDiv) : list PyVal :=
  fold_left
    (fun results result_div =>
       match result_record result_div with
       | Some r => results ++ [r]
       | None => results
       end)
    divs [].

(** [response.raise_for_status()] *)
Definition raise_for_status (r : Response) : M unit :=
  let msg (what : string) :=
    str_of_int (status_code r) ++ lit what ++ reason r
    ++ lit " for url: " ++ resp_url r in
  if (400 <=? status_code r) && (status_code r <? 500)
  then raise (mkFault Exception (msg " Client Error: "))
  else if (500 <=? status_code r) && (status_code r <? 600)
  then raise (mkFault Exception (msg " Server Error: "))
  else ret tt.

(** The call of a schema constructor on the unpacked mapping. *)
Definition construct {A} (v : Validated A) : M A :=
  match v with
  | Valid a => ret a
  | Invalid descr => raise (mkFault Exception descr)
  end.

(** [s.encode("utf-8")] *)
Definition encode (s : pystr) : M (list N) :=
  match encode_utf8 s with
  | Some bytes => ret bytes
  | None =>
      raise (mkFault Exception
        (lit "'utf-8' codec can't encode character: surrogates not allowed"))
  end.

Definition failure (kind : ActionType) (msg : pystr) : ActionResult :=
  mkActionResult kind false PyNone (Some msg) None.

Section Executor.

Variable ext : Externals.
Variable self : ActionExecutor.

Definition requests_post (url q : pystr) : M Response :=
  fun w =>
    let w1 := log (EvPost url q) w in
    match http_post ext w1 url q with
    | Return r => (w1, Return r)
    | Raise e => raise e w1
    end.

(** [subprocess.run(argv, capture_output=True, text=True, timeout=tmo,
    cwd=cwd)] *)
Definition subprocess_run (argv : list pystr) (tmo : Z) (cwd : pystr)
  : M CompletedProcess :=
  fun w =>
    let w1 := log (EvSpawn argv tmo cwd) w in
    match child ext w1 argv tmo cwd with
    | (fs, Return r) => (mkWorld fs (trace w1), Return r)
    | (fs, Raise e) => raise e (mkWorld fs (trace w1))
    end.

(** [path.write_text(data, encoding="utf-8")]: the file is opened (and
    truncated), then the encoded text is written. *)
Definition write_text (path : Path) (data : pystr) : M unit :=
  fun w =>
    let p := Path_str path in
    let w1 := log (EvWrite p) w in
    match open_fault ext w1 p with
    | Some descr => raise (mkFault Exception descr) w1
    | None =>
        match encode data (set_file p [] w1) with
        | (w2, Return bytes) => (set_file p bytes w2, Return tt)
        | (w2, Raise e) => (w2, Raise e)
        end
    end.

Definition _search_web (input_data : gmap string PyVal) : M ActionResult :=
  try_except
    (search_input <- construct (new_SearchWebInput ext input_data) ;;
     let url := lit "https://html.duckduckgo.com/html/" in
     response <- requests_post url (query search_input) ;;
     raise_for_status response ;;;
     let soup := find_all_result ext (text response) in
     let results :=
       search_loop (slice_to (num_results search_input) soup) in
     if negb (truthy results)
     then ret (failure SEARCH_WEB (lit "No search results found"))
     else ret (mkActionResult SEARCH_WEB true (PyList results) None
                 (Some {[ "query"%string := PyStr (query search_input);
                          "num_results"%string :=
                            PyInt (Z.of_nat (length results)) ]})))
    (fun e => ret (failure SEARCH_WEB (lit "Search failed: " ++ exc_str e))).

(** The [except] clauses of [_run_code].  [code_input] is bound only once
    the constructor has returned; reading it before raises
    [UnboundLocalError] out of the handler. *)
Definition run_code_except (code_input : option RunCodeInput) (e : Fault)
  : M ActionResult :=
  match exc_class e with
  | TimeoutExpired =>
      match code_input with
      | Some ci =>
          ret (failure RUN_CODE
                 (lit "Code execution timed out after "
                  ++ str_of_int (timeout ci) ++ lit " seconds"))
      | None =>
          raise (mkFault Exception
            (lit "cannot access local variable 'code_input' where it is not associated with a value"))
      end
  | Exception =>
      ret (failure RUN_CODE (lit "Execution failed: " ++ exc_str e))
  end.

Definition _run_code (input_data : gmap string PyVal) : M ActionResult :=
  try_except
    (code_input <- construct (new_RunCodeInput ext input_data) ;;
     try_except
       (result <- subprocess_run
                    [sys_executable ext; lit "-c"; code code_input]
                    (timeout code_input) (Path_str (output_dir self)) ;;
        let output := stdout result in
        let output :=
          if truthy (stderr result)
          then output ++ [10%N] ++ lit "[stderr]: " ++ stderr result
          else output in
        let success := returncode result =? 0 in
        ret (mkActionResult RUN_CODE success
               (PyStr (if truthy output then strip output
                       else lit "Code executed successfully (no output)"))
               (if success then None
                else Some (lit "Exit code " ++ str_of_int (returncode result)))
               (Some {[ "exit_code"%string := PyInt (returncode result);
                        "execution_time"%string := PyStr (lit "N/A") ]})))
       (run_code_except (Some code_input)))
    (run_code_except None).

Definition _write_file (input_data : gmap string PyVal) : M ActionResult :=
  try_except
    (write_input <- construct (new_WriteFileInput ext input_data) ;;
     let safe_filename := name (Path_of (filename write_input)) in
     let filepath := truediv (output_dir self) safe_filename in
     write_text filepath (content write_input) ;;;
     bytes <- encode (content write_input) ;;
     ret (mkActionResult WRITE_FILE true
            (PyStr (lit "File written successfully: " ++ Path_str filepath))
            None
            (Some {[ "filepath"%string := PyStr (Path_str filepath);
                     "size_bytes"%string :=
                       PyInt (Z.of_nat (length bytes)) ]})))
    (fun e => ret (failure WRITE_FILE (lit "File write failed: " ++ exc_str e))).

Definition _finish (input_data : gmap string PyVal) : M ActionResult :=
  try_except
    (finish_input <- construct (new_FinishInput ext input_data) ;;
     ret (mkActionResult FINISH true
            (PyDict [("summary"%string, PyStr (summary finish_input));
                     ("artifacts"%string,
                       PyList (map PyStr (artifacts finish_input)))])
            None
            (Some {[ "completed"%string := PyBool true ]})))
    (fun e => ret (failure FINISH (lit "Finish action failed: " ++ exc_str e))).

(** The [handlers] table of [execute] and its [get]. *)
Definition handlers (action_type : ActionType)
  : option (gmap string PyVal -> M ActionResult) :=
  match action_type with
  | SEARCH_WEB => Some _search_web
  | RUN_CODE => Some _run_code
  | WRITE_FILE => Some _write_file
  | FINISH => Some _finish
  | OtherKind _ => None
  end.

(** Modelled from the spec: [str(action_type)], whose definition for the
    members of the enumeration is in [core.schemas]; an unknown kind
    renders as its identifier. *)
Definition str_of_kind (action_type : ActionType) : pystr :=
  match action_type with
  | SEARCH_WEB => lit "ActionType.SEARCH_WEB"
  | RUN_CODE => lit "ActionType.RUN_CODE"
  | WRITE_FILE => lit "ActionType.WRITE_FILE"
  | FINISH => lit "ActionType.FINISH"
  | OtherKind ident => ident
  end.

Definition execute (action_type : ActionType) (input_data : gmap string PyVal)
  : M ActionResult :=
  match handlers action_type with
  | None =>
      ret (failure action_type
             (lit "Unknown action type: " ++ str_of_kind action_type))
  | Some handler =>
      try_except (handler input_data)
        (fun e =>
           ret (failure action_type (lit "Execution error: " ++ exc_str e)))
  end.

End Executor.

(** ** Sample collaborators

    Concrete schema constructors and a concrete outside world, on which the
    embedding is run. *)

(** Modelled from the spec: the constructor of [SearchWebInput] in
    [core.schemas]: [query] is a non-empty text and [num_results] a
    positive integer.  The default of [num_results], which the spec does
    not give, is left out: both fields are required. *)
Definition validate_SearchWebInput (d : gmap string PyVal)
  : Validated SearchWebInput :=
  match d !! "query"%string, d !! "num_results"%string with
  | Some (PyStr q), Some (PyInt n) =>
      if truthy q && (0 <? n) then Valid (mkSearchWebInput q n)
      else Invalid (lit "1 validation error for SearchWebInput")
  | _, _ => Invalid (lit "1 validation error for SearchWebInput")
  end.

(** Modelled from the spec: the constructor of [RunCodeInput]: [code] is a
    text and [timeout] a positive number of seconds. *)
Definition validate_RunCodeInput (d : gmap string PyVal)
  : Validated RunCodeInput :=
  match d !! "code"%string, d !! "timeout"%string with
  | Some (PyStr c), Some (PyInt t) =>
      if 0 <? t then Valid (mkRunCodeInput c t)
      else Invalid (lit "1 validation error for RunCodeInput")
  | _, _ => Invalid (lit "1 validation error for RunCodeInput")
  end.

(** Modelled from the spec: the constructor of [WriteFileInput]:
    [filename] and [content] are texts. *)
Definition validate_WriteFileInput (d : gmap string PyVal)
  : Validated WriteFileInput :=
  match d !! "filename"%string, d !! "content"%string with
  | Some (PyStr f), Some (PyStr c) => Valid (mkWriteFileInput f c)
  | _, _ => Invalid (lit "1 validation error for WriteFileInput")
  end.

Fixpoint texts (l : list PyVal) : option (list pystr) :=
  match l with
  | [] => Some []
  | PyStr s :: l' => option_map (cons s) (texts l')
  | _ :: _ => None
  end.

(** Modelled from the spec: the constructor of [FinishInput]: [summary] is
    a text and [artifacts] an ordered list of texts. *)
Definition validate_FinishInput (d : gmap string PyVal)
  : Validated FinishInput :=
  match d !! "summary"%string, d !! "artifacts"%string with
  | Some (PyStr s), Some (PyList l) =>
      match texts l with
      | Some arts => Valid (mkFinishInput s arts)
      | None => Invalid (lit "1 validation error for FinishInput")
      end
  | _, _ => Invalid (lit "1 validation error for FinishInput")
  end.

(** A world in which the search provider answers 200 with a page whose
    result blocks are [page], the child process ends as [outcome], and the
    filesystem refuses nothing. *)
Definition sample_ext (page : list ResultDiv)
  (outcome : Raises CompletedProcess) : Externals :=
  mkExternals
    validate_SearchWebInput validate_RunCodeInput
    validate_WriteFileInput validate_FinishInput
    (fun _ url _ => Return (mkResponse 200 (lit "OK") url (lit "<html>")))
    (fun _ => page)
    (lit "/usr/bin/python3")
    (fun w _ _ _ => (files w, outcome))
    (fun _ _ => None).

Definition sandbox : ActionExecutor := ActionExecutor_init (lit "./output").

Definition empty_world : World := mkWorld ∅ [].

Definition titled (title url : string) : ResultDiv :=
  mkResultDiv (Some (mkTag [lit title] (Some (lit url)))) None.

Definition untitled : ResultDiv := mkResultDiv None None.

Definition exited (out err : pystr) (rc : Z) : Raises CompletedProcess :=
  Return (mkCompletedProcess out err rc).

Definition run_code_params (c : string) (t : Z) : gmap string PyVal :=
  {[ "code"%string := PyStr (lit c); "timeout"%string := PyInt t ]}.

Definition write_file_params (f c : string) : gmap string PyVal :=
  {[ "filename"%string := PyStr (lit f); "content"%string := PyStr (lit c) ]}.

Definition search_params (q : string) (n : Z) : gmap string PyVal :=
  {[ "query"%string := PyStr (lit q); "num_results"%string := PyInt n ]}.

(** A child that outlives a time-out of one second. *)
Definition timed_out : Raises CompletedProcess :=
  Raise (mkFault TimeoutExpired
    (lit "Command '['/usr/bin/python3', '-c', 'import time; time.sleep(5)']' timed out after 1 seconds")).

Definition page_untitled_first : list ResultDiv :=
  [untitled;
   titled "Rocq" "https://rocq-prover.org";
   titled "Stdpp" "https://gitlab.mpi-sws.org/iris/stdpp";
   titled "Iris" "https://iris-project.org"].

Definition page_five : list ResultDiv :=
  [titled "Rocq" "https://rocq-prover.org";
   titled "Stdpp" "https://gitlab.mpi-sws.org/iris/stdpp";
   titled "Iris" "https://iris-project.org";
   titled "MathComp" "https://math-comp.github.io";
   titled "Equations" "https://mattam82.github.io/Coq-Equations"].

(** ** Vocabulary of the statements *)


(** The command line of the child and how the child ends, as [_run_code]
    asks for it in the world [w]. *)
Definition child_argv (ext : Externals) (ci : RunCodeInput) : list pystr :=
  [sys_executable ext; lit "-c"; code ci].

Definition spawned (ext : Externals) (self : ActionExecutor)
  (ci : RunCodeInput) (w : World) : World :=
  log (EvSpawn (child_argv ext ci) (timeout ci) (Path_str (output_dir self))) w.

Definition child_outcome (ext : Externals) (self : ActionExecutor)
  (ci : RunCodeInput) (w : World)
  : gmap (list N) (list N) * Raises CompletedProcess :=
  child ext (spawned ext self ci w) (child_argv ext ci) (timeout ci)
    (Path_str (output_dir self)).

(** The combined output of a completed child, before stripping. *)
Definition combined (cp : CompletedProcess) : pystr :=
  if truthy (stderr cp)
  then stdout cp ++ [10%N] ++ lit "[stderr]: " ++ stderr cp
  else stdout cp.

Definition placeholder : pystr := lit "Code executed successfully (no output)".

(** The result of [_run_code] once the child has completed. *)
Definition completed_result (cp : CompletedProcess) : ActionResult :=
  mkActionResult RUN_CODE (returncode cp =? 0)
    (PyStr (if truthy (combined cp) then strip (combined cp) else placeholder))
    (if returncode cp =? 0 then None
     else Some (lit "Exit code " ++ str_of_int (returncode cp)))
    (Some {[ "exit_code"%string := PyInt (returncode cp);
             "execution_time"%string := PyStr (lit "N/A") ]}).

Definition search_url : pystr := lit "https://html.duckduckgo.com/html/".

(** The answer of the provider to the query of [si], as [_search_web]
    asks for it in the world [w]. *)
Definition posted (si : SearchWebInput) (w : World) : World :=
  log (EvPost search_url (query si)) w.

Definition provider_answer (ext : Externals) (si : SearchWebInput) (w : World)
  : Raises Response :=
  http_post ext (posted si w) search_url (query si).

(** The status codes [raise_for_status] lets through. *)
Definition status_ok (r : Response) : Prop :=
  status_code r < 400 \/ 600 <= status_code r.

(** The result blocks of the parsed page of a response. *)
Definition blocks (ext : Externals) (r : Response) : list ResultDiv :=
  find_all_result ext (text r).

(** The result of [_search_web] once the provider has answered with a
    status that is let through. *)
Definition answered_result (si : SearchWebInput) (divs : list ResultDiv)
  : ActionResult :=
  let results := search_loop (slice_to (num_results si) divs) in
  match results with
  | [] => failure SEARCH_WEB (lit "No search results found")
  | _ :: _ =>
      mkActionResult SEARCH_WEB true (PyList results) None
        (Some {[ "query"%string := PyStr (query si);
                 "num_results"%string := PyInt (Z.of_nat (length results)) ]})
  end.

(** Whether a block has a title link ([if title_elem:]). *)
Definition has_title (d : ResultDiv) : bool :=
  match result__a d with Some _ => true | None => false end.

(** The extraction as the specification words it: the blocks lacking a
    title link are skipped without counting toward the limit, so that the
    first [n] parseable blocks of the page give the records. *)
Definition search_records_spec (n : Z) (divs : list ResultDiv) : list PyVal :=
  slice_to n (omap result_record divs).

(** A parsed path: one of the three roots, and components that are kept
    and hold no separator. *)
Definition well_formed (p : Path) : Prop :=
  (root p = [] \/ root p = [sep] \/ root p = [sep; sep])
  /\ Forall (fun piece => kept piece = true /\ ~ In sep piece) (tail p).

(** The path [_write_file] resolves for a validated input. *)
Definition resolved (self : ActionExecutor) (wi : WriteFileInput) : Path :=
  truediv (output_dir self) (name (Path_of (filename wi))).

Definition opened (self : ActionExecutor) (wi : WriteFileInput) (w : World)
  : World :=
  log (EvWrite (Path_str (resolved self wi))) w.

(** ** Further sample data and vocabulary *)

(** A provider that answers 404 whatever the query. *)
Definition not_found_ext : Externals :=
  mkExternals
    validate_SearchWebInput validate_RunCodeInput
    validate_WriteFileInput validate_FinishInput
    (fun _ url _ =>
       Return (mkResponse 404 (lit "Not Found") url (lit "<html>")))
    (fun _ => page_five)
    (lit "/usr/bin/python3")
    (fun w _ _ _ => (files w, exited [] [] 0))
    (fun _ _ => None).

(** A block whose title link holds three text nodes with white space
    around them, and whose snippet is padded. *)
Definition page_markup : list ResultDiv :=
  [mkResultDiv
     (Some (mkTag [[10%N; 32%N] ++ lit "Rocq "; lit " "; lit " Prover" ++ [10%N]]
              (Some (lit "https://rocq-prover.org"))))
     (Some (mkTag [lit "  a proof assistant  "] None))].

(** A content with one character outside ASCII (U+00E9). *)
Definition cafe_params : gmap string PyVal :=
  {[ "filename"%string := PyStr (lit "menu/cafe.txt");
     "content"%string := PyStr [99%N; 97%N; 102%N; 233%N] ]}.

Definition finish_params : gmap string PyVal :=
  {[ "summary"%string := PyStr (lit "done");
     "artifacts"%string :=
       PyList [PyStr (lit "report.md"); PyStr (lit "plot.png")] ]}.

(** The result a run returned (a run of [execute] always returns one). *)
Definition result_of (run : World * Raises ActionResult) : ActionResult :=
  match snd run with
  | Return r => r
  | Raise e => failure FINISH (exc_str e)
  end.

(** Whether a code point is a Unicode scalar value: no surrogate, and not
    past U+10FFFF. *)
Definition scalar (c : N) : bool :=
  ((c <? 55296) || (57343 <? c) && (c <? 1114112))%N.

(** What a record of the output of SEARCH_WEB is: a title and a snippet
    that are stripped texts, and a URL. *)
Definition record_stripped (rec : PyVal) : Prop :=
  exists title url snippet : pystr,
    rec = PyDict [("title"%string, PyStr title);
                  ("url"%string, PyStr url);
                  ("snippet"%string, PyStr snippet)]
    /\ strip title = title
    /\ strip snippet = snippet.

(** * Properties *)

(** ** The embedding on sample inputs *)

Example strip_example : strip (lit "  hi
") = lit "hi".
Proof. reflexivity. Qed.

Example str_of_int_neg : str_of_int (-9) = lit "-9".
Proof. reflexivity. Qed.

Example str_of_int_zero : str_of_int 0 = lit "0".
Proof. reflexivity. Qed.

Example split_example :
  split 47%N (lit "../../secret.txt") = [lit ".."; lit ".."; lit "secret.txt"].
Proof. reflexivity. Qed.

Example name_traversal : name (Path_of (lit "../../secret.txt")) = lit "secret.txt".
Proof. reflexivity. Qed.

Example name_passwd : name (Path_of (lit "../../etc/passwd")) = lit "passwd".
Proof. reflexivity. Qed.

Example name_dotdot : name (Path_of (lit "a/..")) = lit "..".
Proof. reflexivity. Qed.

Example name_trailing : name (Path_of (lit "a/b/./")) = lit "b".
Proof. reflexivity. Qed.

Example Path_of_slashes :
  Path_str (Path_of (lit "///srv//out/./x")) = lit "/srv/out/x"
  /\ Path_str (Path_of (lit "//srv/out")) = lit "//srv/out"
  /\ Path_str (Path_of (lit "")) = lit ".".
Proof. repeat split. Qed.

Example truediv_output :
  Path_str (truediv (Path_of (lit "./output")) (lit "secret.txt"))
  = lit "output/secret.txt".
Proof. reflexivity. Qed.

Example truediv_empty :
  Path_str (truediv (Path_of (lit "/srv/out/")) []) = lit "/srv/out".
Proof. reflexivity. Qed.

Example run_code_hi :
  snd (execute (sample_ext [] (exited (lit "hi" ++ [10%N]) [] 0)) sandbox
         RUN_CODE (run_code_params "print('hi')" 5) empty_world)
  = Return (mkActionResult RUN_CODE true (PyStr (lit "hi")) None
      (Some {[ "exit_code"%string := PyInt 0;
               "execution_time"%string := PyStr (lit "N/A") ]})).
Proof. vm_compute. reflexivity. Qed.

Example write_file_missing_field :
  execute (sample_ext [] (exited [] [] 0)) sandbox WRITE_FILE
    {[ "filename"%string := PyStr (lit "notes.txt") ]} empty_world
  = (log (EvRaise (mkFault Exception
                     (lit "1 validation error for WriteFileInput")))
       empty_world,
     Return (failure WRITE_FILE
               (lit "File write failed: 1 validation error for WriteFileInput"))).
Proof. vm_compute. reflexivity. Qed.

Example finish_roundtrip :
  exists md,
  snd (execute (sample_ext [] (exited [] [] 0)) sandbox FINISH
         {[ "summary"%string := PyStr (lit "done");
            "artifacts"%string := PyList [PyStr (lit "a.txt"); PyStr (lit "b.txt")] ]}
         empty_world)
  = Return (mkActionResult FINISH true
      (PyDict [("summary"%string, PyStr (lit "done"));
               ("artifacts"%string, PyList [PyStr (lit "a.txt"); PyStr (lit "b.txt")])])
      None md).
Proof. eexists. vm_compute. reflexivity. Qed.

(** ** Facts about texts *)

Arguments lit : simpl never.
Arguments str_of_int : simpl never.

Lemma contains_suffix (p s : pystr) : contains s (p ++ s).
Proof. exists p, []. by rewrite app_nil_r. Qed.

Lemma contains_infix (p s q : pystr) : contains s (p ++ s ++ q).
Proof. by exists p, q. Qed.

Lemma contains_refl (s : pystr) : contains s s.
Proof. exists [], []. by rewrite app_nil_r. Qed.

Lemma lit_String a s : lit (String a s) = N_of_ascii a :: lit s.
Proof. reflexivity. Qed.

Lemma lit_app_nonempty a s (t : pystr) : lit (String a s) ++ t <> [].
Proof. by rewrite lit_String. Qed.

Lemma lit_nonempty a s : lit (String a s) <> [].
Proof. by rewrite lit_String. Qed.

Create HintDb py.
#[local] Hint Resolve contains_suffix contains_infix contains_refl : py.

(** ** The dispatch boundary *)

Ltac unfold_py :=
  unfold execute, handlers, _search_web, _run_code, _write_file, _finish,
    run_code_except, write_text, encode, subprocess_run, requests_post,
    raise_for_status, construct, try_except, bind, raise, ret, failure in *.

Ltac case_oracle :=
  match goal with
  | |- context [new_SearchWebInput ?x ?d] =>
      destruct (new_SearchWebInput x d) eqn:?
  | |- context [new_RunCodeInput ?x ?d] =>
      destruct (new_RunCodeInput x d) eqn:?
  | |- context [new_WriteFileInput ?x ?d] =>
      destruct (new_WriteFileInput x d) eqn:?
  | |- context [new_FinishInput ?x ?d] =>
      destruct (new_FinishInput x d) eqn:?
  | |- context [http_post ?x ?w ?u ?q] =>
      destruct (http_post x w u q) as [?|[[|] ?]] eqn:?
  | |- context [child ?x ?w ?a ?t ?c] =>
      destruct (child x w a t c) as [? [?|[[|] ?]]] eqn:?
  | |- context [open_fault ?x ?w ?p] =>
      destruct (open_fault x w p) eqn:?
  | |- context [encode_utf8 ?s] =>
      destruct (encode_utf8 s) eqn:?
  | |- context [truthy (search_loop ?l)] =>
      destruct (search_loop l) eqn:?
  | |- context [andb (Z.leb ?a ?b) (Z.ltb ?c ?d)] =>
      destruct (andb (Z.leb a b) (Z.ltb c d)) eqn:?
  | |- context [Z.eqb ?a ?b] =>
      destruct (Z.eqb a b) eqn:?
  end; cbn [fst snd negb truthy log trace files set_file exc_class exc_str
            action success output error metadata].


Ltac fault_in H :=
  cbn in H;
  repeat match type of H with
         | _ \/ _ => destruct H as [H|H]
         | False => destruct H
         | EvRaise _ = EvRaise _ => injection H as <-
         | _ = _ => discriminate H
         end.

Ltac all_paths :=
  unfold_py;
  cbn [fst snd negb log trace files set_file exc_class exc_str];
  repeat case_oracle.





(** C2. Every result of [execute] satisfies the envelope invariant: a
    failure carries a non-empty error message, a success carries none. *)
Theorem execute_envelope ext self action_type input_data w :
  exists w' r,
    execute ext self action_type input_data w = (w', Return r)
    /\ (success r = false -> exists msg, error r = Some msg /\ msg <> [])
    /\ (success r = true -> error r = None).
Proof.
  destruct action_type; all_paths.
  all: do 2 eexists; (split; [reflexivity|]); cbn; split; intros Hs.
  all: try discriminate Hs; try reflexivity.
  all: eexists; (split; [reflexivity|]).
  all: first [ apply lit_app_nonempty | apply lit_nonempty ].
Qed.

(** C10. Whatever the kind, the input and the outcome, the [action] field
    of the result of [execute] is the kind that was requested. *)
Theorem execute_action_field ext self action_type input_data w :
  exists w' r,
    execute ext self action_type input_data w = (w', Return r)
    /\ action r = action_type.
Proof.
  destruct action_type; all_paths.
  all: do 2 eexists; split; reflexivity.
Qed.

(** C9. For a kind that is none of the four known ones, [execute] returns
    at once a failure whose message contains the identifier of the kind;
    no handler runs: the world, trace included, is left as it was, and the
    collaborators and the parameter mapping play no part in the result. *)
Theorem execute_unknown_kind ext self action_type input_data w :
  action_type <> SEARCH_WEB -> action_type <> RUN_CODE ->
  action_type <> WRITE_FILE -> action_type <> FINISH ->
  handlers ext self action_type = None
  /\ execute ext self action_type input_data w
     = (w, Return (failure action_type
                     (lit "Unknown action type: " ++ str_of_kind action_type)))
  /\ contains (str_of_kind action_type)
       (lit "Unknown action type: " ++ str_of_kind action_type).
Proof.
  intros H1 H2 H3 H4.
  destruct action_type; try congruence.
  repeat split; auto with py.
Qed.

Lemma execute_unknown_kind_witness :
  let k := OtherKind (lit "DELETE_ALL") in
  execute (sample_ext [] (exited [] [] 0)) sandbox k ∅ empty_world
  = (empty_world,
     Return (failure k (lit "Unknown action type: DELETE_ALL"))).
Proof.
  intros k.
  exact (proj1 (proj2 (execute_unknown_kind
    (sample_ext [] (exited [] [] 0)) sandbox k ∅ empty_world
    ltac:(discriminate) ltac:(discriminate)
    ltac:(discriminate) ltac:(discriminate)))).
Defined.

(** ** RUN_CODE *)

Lemma run_code_completed ext self input_data w ci fs cp :
  new_RunCodeInput ext input_data = Valid ci ->
  child_outcome ext self ci w = (fs, Return cp) ->
  execute ext self RUN_CODE input_data w
  = (mkWorld fs (trace (spawned ext self ci w)), Return (completed_result cp)).
Proof.
  intros Hv Hc. unfold child_outcome, spawned, child_argv in Hc.
  unfold_py. rewrite Hv. cbn [fst snd]. unfold log in *. rewrite Hc.
  reflexivity.
Qed.

(** C7. When the child completes, [success] is true exactly when the exit
    code is 0; a nonzero exit code is named in the error message; and
    [metadata.exit_code] is the raw exit code in both cases. *)
Theorem run_code_exit_code ext self input_data w ci fs cp :
  new_RunCodeInput ext input_data = Valid ci ->
  child_outcome ext self ci w = (fs, Return cp) ->
  exists w' r md,
    execute ext self RUN_CODE input_data w = (w', Return r)
    /\ (success r = true <-> returncode cp = 0)
    /\ (returncode cp <> 0 ->
        error r = Some (lit "Exit code " ++ str_of_int (returncode cp))
        /\ contains (str_of_int (returncode cp))
             (lit "Exit code " ++ str_of_int (returncode cp)))
    /\ metadata r = Some md
    /\ md !! "exit_code"%string = Some (PyInt (returncode cp)).
Proof.
  intros Hv Hc.
  do 3 eexists. split; [by apply run_code_completed|].
  cbn [success error metadata completed_result].
  split; [apply Z.eqb_eq|].
  split; [|split; [reflexivity|by rewrite lookup_insert_eq]].
  intros Hrc. apply Z.eqb_neq in Hrc. rewrite Hrc. auto with py.
Qed.

Lemma run_code_exit_code_witness :
  exists w' r md,
    execute (sample_ext [] (exited [] (lit "boom") 1)) sandbox RUN_CODE
      (run_code_params "import sys; sys.exit(1)" 5) empty_world
    = (w', Return r)
    /\ (success r = true <-> 1 = 0)
    /\ (1 <> 0 ->
        error r = Some (lit "Exit code 1")
        /\ contains (lit "1") (lit "Exit code 1"))
    /\ metadata r = Some md
    /\ md !! "exit_code"%string = Some (PyInt 1).
Proof.
  exact (run_code_exit_code (sample_ext [] (exited [] (lit "boom") 1))
           sandbox (run_code_params "import sys; sys.exit(1)" 5) empty_world
           (mkRunCodeInput (lit "import sys; sys.exit(1)") 5) ∅
           (mkCompletedProcess [] (lit "boom") 1) eq_refl eq_refl).
Defined.

(** C6. When the child outlives the time-out the caller supplied, the
    result is a failure whose message states that duration; the validated
    input, and with it the time-out, is bound when the clause runs. *)
Theorem run_code_timeout ext self input_data w ci fs e :
  new_RunCodeInput ext input_data = Valid ci ->
  child_outcome ext self ci w = (fs, Raise e) ->
  exc_class e = TimeoutExpired ->
  exists w',
    execute ext self RUN_CODE input_data w
    = (w', Return (failure RUN_CODE
                     (lit "Code execution timed out after "
                      ++ str_of_int (timeout ci) ++ lit " seconds")))
    /\ contains (str_of_int (timeout ci))
         (lit "Code execution timed out after "
          ++ str_of_int (timeout ci) ++ lit " seconds").
Proof.
  intros Hv Hc He. unfold child_outcome, spawned, child_argv in Hc.
  eexists. split; [|auto with py].
  unfold_py. rewrite Hv. cbn [fst snd]. unfold log in *. rewrite Hc.
  cbn [fst snd]. rewrite He. reflexivity.
Qed.

Lemma run_code_timeout_witness :
  exists w',
    execute (sample_ext [] timed_out) sandbox RUN_CODE
      (run_code_params "import time; time.sleep(5)" 1) empty_world
    = (w', Return (failure RUN_CODE
                     (lit "Code execution timed out after 1 seconds")))
    /\ contains (lit "1") (lit "Code execution timed out after 1 seconds").
Proof.
  exact (run_code_timeout (sample_ext [] timed_out) sandbox
           (run_code_params "import time; time.sleep(5)" 1) empty_world
           (mkRunCodeInput (lit "import time; time.sleep(5)") 1) ∅ _
           eq_refl eq_refl eq_refl).
Defined.

(** *** Stripping *)

Lemma lstrip_nil_iff (s : pystr) : lstrip s = [] <-> forallb isspace s = true.
Proof.
  induction s as [|c s IH]; cbn; [done|].
  destruct (isspace c); cbn; [done|].
  split; discriminate.
Qed.

Lemma lstrip_head (s : pystr) c t : lstrip s = c :: t -> isspace c = false.
Proof.
  induction s as [|d s IH]; cbn; [done|].
  destruct (isspace d) eqn:Hd; [done|].
  by intros [= <- _].
Qed.

Lemma forallb_rev {A} (f : A -> bool) (l : list A) :
  forallb f (rev l) = forallb f l.
Proof.
  induction l as [|x l IH]; cbn; [done|].
  by rewrite forallb_app, IH; cbn; rewrite andb_true_r, andb_comm.
Qed.

(** Stripping leaves nothing exactly when the text is all white space. *)
Lemma strip_nil_iff (s : pystr) : strip s = [] <-> forallb isspace s = true.
Proof.
  unfold strip, rstrip. split.
  - intros H. apply (f_equal (@rev N)) in H. rewrite rev_involutive in H.
    cbn in H. apply lstrip_nil_iff in H. rewrite forallb_rev in H.
    destruct (lstrip s) as [|c t] eqn:Hs; [by apply lstrip_nil_iff|].
    apply lstrip_head in Hs. cbn in H. by rewrite Hs in H.
  - intros H. apply lstrip_nil_iff in H. by rewrite H.
Qed.

(** A child that printed nothing at all gets the placeholder as output,
    whatever its exit code. *)
Lemma run_code_no_output ext self input_data w ci fs rc :
  new_RunCodeInput ext input_data = Valid ci ->
  child_outcome ext self ci w = (fs, Return (mkCompletedProcess [] [] rc)) ->
  exists w' r,
    execute ext self RUN_CODE input_data w = (w', Return r)
    /\ output r = PyStr placeholder
    /\ placeholder <> [].
Proof.
  intros Hv Hc. do 2 eexists.
  split; [by apply run_code_completed|]. split; [reflexivity|].
  apply lit_nonempty.
Qed.

(** The output of a completed child is the empty string exactly when it
    wrote nothing to standard error and a non-empty run of white space to
    standard output. *)
Lemma completed_output_blank_iff (cp : CompletedProcess) :
  output (completed_result cp) = PyStr []
  <-> stderr cp = [] /\ stdout cp <> [] /\ forallb isspace (stdout cp) = true.
Proof.
  cbn [output completed_result]. unfold combined.
  destruct (stderr cp) as [|c err] eqn:He; cbn [truthy].
  - destruct (stdout cp) as [|d out] eqn:Ho; cbn [truthy].
    + split; [discriminate|]. by intros (_ & ? & _).
    + split.
      * intros [= H]. apply strip_nil_iff in H. done.
      * intros (_ & _ & H). f_equal. by apply strip_nil_iff.
  - split; [|by intros (? & _)].
    destruct (stdout cp ++ [10%N] ++ lit "[stderr]: " ++ c :: err) eqn:Hs;
      cbn [truthy]; [discriminate|].
    intros [= H]. apply strip_nil_iff in H. rewrite <- Hs in H.
    rewrite !forallb_app in H. cbn in H.
    rewrite andb_false_r in H. discriminate.
Qed.

(** C4, at the input where the code departs from it: a child that prints
    one newline and exits with 0 (the program [print()]) yields a
    successful result whose output is the empty string; the emptiness test
    comes before the stripping. *)
Theorem run_code_blank_output :
  snd (execute (sample_ext [] (exited [10%N] [] 0)) sandbox RUN_CODE
         (run_code_params "print()" 5) empty_world)
  = Return (mkActionResult RUN_CODE true (PyStr []) None
      (Some {[ "exit_code"%string := PyInt 0;
               "execution_time"%string := PyStr (lit "N/A") ]})).
Proof. vm_compute. reflexivity. Qed.

(** ** SEARCH_WEB *)

Lemma search_loop_acc (divs : list ResultDiv) (acc : list PyVal) :
  fold_left
    (fun results result_div =>
       match result_record result_div with
       | Some r => results ++ [r]
       | None => results
       end) divs acc
  = acc ++ omap result_record divs.
Proof.
  revert acc. induction divs as [|d divs IH]; intros acc; cbn.
  - by rewrite app_nil_r.
  - rewrite IH. destruct (result_record d); cbn; [|done].
    by rewrite <- app_assoc.
Qed.

(** The loop keeps, in order, the records of the blocks that have a title
    link. *)
Lemma search_loop_omap (divs : list ResultDiv) :
  search_loop divs = omap result_record divs.
Proof. unfold search_loop. by rewrite search_loop_acc. Qed.

Lemma search_loop_length (divs : list ResultDiv) :
  (length (search_loop divs) <= length divs)%nat.
Proof.
  rewrite search_loop_omap.
  induction divs as [|d divs IH]; cbn; [done|].
  destruct (result_record d); cbn; lia.
Qed.

Lemma result_record_None (d : ResultDiv) :
  result_record d = None <-> result__a d = None.
Proof. unfold result_record. by destruct (result__a d). Qed.

(** A page none of whose blocks has a title link yields no record. *)
Lemma search_loop_untitled (divs : list ResultDiv) :
  Forall (fun d => result__a d = None) divs -> search_loop divs = [].
Proof.
  rewrite search_loop_omap.
  induction 1 as [|d divs Hd _ IH]; cbn; [done|].
  apply result_record_None in Hd. by rewrite Hd.
Qed.

Lemma search_loop_titled (divs : list ResultDiv) :
  Forall (fun d => is_Some (result__a d)) divs ->
  length (search_loop divs) = length divs.
Proof.
  rewrite search_loop_omap.
  induction 1 as [|d divs [t Hd] _ IH]; cbn; [done|].
  unfold result_record at 1. rewrite Hd. cbn. by rewrite IH.
Qed.

Lemma slice_to_nonneg {A} (n : Z) (l : list A) :
  0 <= n -> slice_to n l = firstn (Z.to_nat n) l.
Proof. intros H. unfold slice_to. by apply Z.leb_le in H as ->. Qed.

Lemma slice_to_Forall {A} (P : A -> Prop) (n : Z) (l : list A) :
  Forall P l -> Forall P (slice_to n l).
Proof. unfold slice_to. destruct (0 <=? n); apply Forall_take. Qed.

Lemma status_ok_passes (r : Response) (w : World) :
  status_ok r -> raise_for_status r w = (w, Return tt).
Proof.
  intros H. unfold raise_for_status, status_ok in *.
  destruct (400 <=? status_code r) eqn:H4, (status_code r <? 500) eqn:H5,
    (500 <=? status_code r) eqn:H6, (status_code r <? 600) eqn:H7;
    cbn; try reflexivity; lia.
Qed.

Lemma search_web_answered ext self input_data w si resp :
  new_SearchWebInput ext input_data = Valid si ->
  provider_answer ext si w = Return resp ->
  status_ok resp ->
  execute ext self SEARCH_WEB input_data w
  = (posted si w, Return (answered_result si (blocks ext resp))).
Proof.
  intros Hv Hp Hs. unfold provider_answer, posted, search_url, blocks in *.
  unfold execute, handlers, _search_web, construct, requests_post,
    try_except, bind. rewrite Hv. cbn [ret fst snd]. unfold log in *.
  rewrite Hp. rewrite status_ok_passes by done.
  unfold answered_result, ret.
  by destruct (search_loop _).
Qed.

(** C8. When the provider has answered and the list of records parsed
    from the page is empty (in particular when no block of the page has a
    title link), the result is a failure whose error is exactly
    [No search results found]; and no run of SEARCH_WEB succeeds with an
    empty list of records. *)
Theorem search_web_no_results ext self input_data w :
  (forall si resp,
     new_SearchWebInput ext input_data = Valid si ->
     provider_answer ext si w = Return resp ->
     status_ok resp ->
     search_loop (slice_to (num_results si) (blocks ext resp)) = [] ->
     execute ext self SEARCH_WEB input_data w
     = (posted si w,
        Return (failure SEARCH_WEB (lit "No search results found"))))
  /\ (forall si resp,
        Forall (fun d => result__a d = None) (blocks ext resp) ->
        search_loop (slice_to (num_results si) (blocks ext resp)) = [])
  /\ (forall w' r,
        execute ext self SEARCH_WEB input_data w = (w', Return r) ->
        success r = true ->
        exists recs, output r = PyList recs /\ recs <> []).
Proof.
  split; [|split].
  - intros si resp Hv Hp Hs Hnil.
    rewrite (search_web_answered _ _ _ _ _ _ Hv Hp Hs).
    unfold answered_result. by rewrite Hnil.
  - intros si resp Hall. by apply search_loop_untitled, slice_to_Forall.
  - intros w' r. all_paths; intros [= <- <-]; cbn; try discriminate.
    intros _. eexists. split; [reflexivity|]. discriminate.
Qed.

Lemma search_web_no_results_witness :
  execute (sample_ext [untitled; untitled] (exited [] [] 0)) sandbox
    SEARCH_WEB (search_params "rocq" 3) empty_world
  = (posted (mkSearchWebInput (lit "rocq") 3) empty_world,
     Return (failure SEARCH_WEB (lit "No search results found"))).
Proof.
  exact (proj1 (search_web_no_results
                  (sample_ext [untitled; untitled] (exited [] [] 0)) sandbox
                  (search_params "rocq" 3) empty_world)
           (mkSearchWebInput (lit "rocq") 3)
           (mkResponse 200 (lit "OK") search_url (lit "<html>"))
           eq_refl eq_refl ltac:(left; reflexivity) eq_refl).
Defined.

(** C3 fails as it is worded: on a page whose first block has no title
    link and whose next three have one, with [num_results = 3], the
    specification's extraction gives three records and the code two: the
    skipped block has counted toward the limit. *)
Lemma search_web_skipped_block_counts :
  exists w' recs md,
    execute (sample_ext page_untitled_first (exited [] [] 0)) sandbox
      SEARCH_WEB (search_params "proof assistants" 3) empty_world
    = (w', Return (mkActionResult SEARCH_WEB true (PyList recs) None md))
    /\ length recs = 2%nat
    /\ length (search_records_spec 3 page_untitled_first) = 3%nat
    /\ recs <> search_records_spec 3 page_untitled_first.
Proof.
  do 3 eexists. split; [vm_compute; reflexivity|].
  split; [reflexivity|]. split; [reflexivity|]. discriminate.
Qed.

(** C3, amended.  Once the provider has answered, and for a
    non-negative [num_results], the records are those of the blocks that
    have a title link among the first [num_results] blocks of the page,
    in order: there are at most [num_results] of them, exactly
    [num_results] when each of these first blocks has a title link and
    the page has that many blocks, and the result is a success carrying
    them as soon as there is one.  Each record holds the stripped text
    and the [href] of the title link of its block. *)
Theorem search_web_first_blocks ext self input_data w si resp :
  new_SearchWebInput ext input_data = Valid si ->
  provider_answer ext si w = Return resp ->
  status_ok resp ->
  0 <= num_results si ->
  let examined := firstn (Z.to_nat (num_results si)) (blocks ext resp) in
  let recs := omap result_record examined in
  (length recs <= Z.to_nat (num_results si))%nat
  /\ (Forall (fun d => is_Some (result__a d)) examined ->
      (Z.to_nat (num_results si) <= length (blocks ext resp))%nat ->
      length recs = Z.to_nat (num_results si))
  /\ Forall2
       (fun d r =>
          exists link,
            result__a d = Some link
            /\ exists snippet,
                 r = PyDict [("title"%string, PyStr (get_text link));
                             ("url"%string, PyStr (default [] (href link)));
                             ("snippet"%string, PyStr snippet)])
       (List.filter has_title examined) recs
  /\ (recs <> [] ->
      execute ext self SEARCH_WEB input_data w
      = (posted si w,
         Return (mkActionResult SEARCH_WEB true (PyList recs) None
                   (Some {[ "query"%string := PyStr (query si);
                            "num_results"%string :=
                              PyInt (Z.of_nat (length recs)) ]})))).
Proof.
  intros Hv Hp Hs Hn examined recs.
  assert (Hrecs : search_loop (slice_to (num_results si) (blocks ext resp))
                  = recs).
  { by rewrite slice_to_nonneg, search_loop_omap. }
  assert (Hlen : (length examined <= Z.to_nat (num_results si))%nat).
  { subst examined. rewrite length_take. lia. }
  split; [|split; [|split]].
  - subst recs. rewrite <- search_loop_omap.
    pose proof (search_loop_length examined). lia.
  - intros Hall Hpage. subst recs. rewrite <- search_loop_omap.
    rewrite search_loop_titled by done.
    subst examined. rewrite length_take. lia.
  - subst recs. clear. induction examined as [|d ds IH]; cbn; [constructor|].
    unfold result_record at 1.
    destruct (result__a d) as [link|] eqn:Hd; cbn.
    + unfold has_title at 1. rewrite Hd. constructor; [|exact IH].
      exists link. split; [done|]. eexists. reflexivity.
    + unfold has_title at 1. by rewrite Hd.
  - intros Hne. rewrite (search_web_answered _ _ _ _ _ _ Hv Hp Hs).
    unfold answered_result. rewrite Hrecs.
    by destruct recs.
Qed.

Lemma search_web_first_blocks_witness :
  let recs := omap result_record (firstn 3 page_five) in
  length recs = 3%nat
  /\ execute (sample_ext page_five (exited [] [] 0)) sandbox
       SEARCH_WEB (search_params "proof assistants" 3) empty_world
     = (posted (mkSearchWebInput (lit "proof assistants") 3) empty_world,
        Return (mkActionResult SEARCH_WEB true (PyList recs) None
                  (Some {[ "query"%string := PyStr (lit "proof assistants");
                           "num_results"%string := PyInt 3 ]}))).
Proof.
  intros recs.
  pose proof (search_web_first_blocks
                (sample_ext page_five (exited [] [] 0)) sandbox
                (search_params "proof assistants" 3) empty_world
                (mkSearchWebInput (lit "proof assistants") 3)
                (mkResponse 200 (lit "OK") search_url (lit "<html>"))
                eq_refl eq_refl ltac:(left; reflexivity) ltac:(discriminate))
    as (_ & Hlen & _ & Hrun).
  split.
  - apply Hlen; [|cbn; lia].
    repeat constructor; eexists; reflexivity.
  - apply Hrun. discriminate.
Defined.

(** ** WRITE_FILE *)

Lemma split_no_sep (c : N) (s : pystr) :
  Forall (fun piece => ~ In c piece) (split c s) /\ split c s <> [].
Proof.
  induction s as [|d s [IH Hne]]; cbn.
  - split; [|done]. constructor; [|constructor]. intros [].
  - destruct (d =? c)%N eqn:Hd.
    + split; [|done]. constructor; [intros []|exact IH].
    + destruct (split c s) as [|p ps]; [done|].
      split; [|done]. inversion IH as [|? ? Hp Hps]; subst.
      constructor; [|exact Hps].
      intros [->|Hin]; [|by apply Hp].
      by rewrite N.eqb_refl in Hd.
Qed.

Lemma last_Forall {A} (P : A -> Prop) (l : list A) (d : A) :
  Forall P l -> P d -> P (List.last l d).
Proof.
  intros Hl Hd. induction Hl as [|x l Hx Hl IH]; cbn; [done|].
  destruct l; [done|]. exact IH.
Qed.

(** The base name holds no separator: every directory component of the
    name the caller gave is gone, whatever that name was. *)
Lemma name_no_sep (s : pystr) : ~ In sep (name (Path_of s)).
Proof.
  unfold name, Path_of. destruct (splitroot s) as [rt rel]. cbn [tail].
  apply (last_Forall (fun piece => ~ In sep piece)); [|intros []].
  apply List.Forall_forall. intros piece Hin.
  apply List.filter_In in Hin as [Hin _].
  pose proof (proj1 (split_no_sep sep rel)) as Hall.
  rewrite List.Forall_forall in Hall. exact (Hall piece Hin).
Qed.

(** *** The resolved path is one component below the directory *)

Lemma split_cons_no_sep (c : N) (x rest : pystr) :
  ~ In c x -> split c (x ++ c :: rest) = x :: split c rest.
Proof.
  induction x as [|d x IH]; intros Hx; cbn.
  - by rewrite N.eqb_refl.
  - destruct (d =? c)%N eqn:Hd.
    + apply N.eqb_eq in Hd. destruct Hx. by left.
    + rewrite IH; [done|]. intros Hin. apply Hx. by right.
Qed.

Lemma split_one_piece (c : N) (x : pystr) : ~ In c x -> split c x = [x].
Proof.
  induction x as [|d x IH]; intros Hx; cbn; [done|].
  destruct (d =? c)%N eqn:Hd.
  - apply N.eqb_eq in Hd. destruct Hx. by left.
  - rewrite IH; [done|]. intros Hin. apply Hx. by right.
Qed.

Lemma split_join (c : N) (l : list pystr) :
  l <> [] -> Forall (fun piece => ~ In c piece) l -> split c (join [c] l) = l.
Proof.
  intros Hne Hall. induction Hall as [|x l Hx Hl IH]; [done|].
  destruct l as [|y l].
  - by apply split_one_piece.
  - change (join [c] (x :: y :: l)) with (x ++ c :: join [c] (y :: l)).
    rewrite split_cons_no_sep by done. by rewrite IH.
Qed.

Lemma join_snoc (s : pystr) (l : list pystr) (k : pystr) :
  l <> [] -> join s (l ++ [k]) = join s l ++ s ++ k.
Proof.
  intros Hne. induction l as [|x l IH]; [done|].
  destruct l as [|y l]; [done|].
  change (join s ((x :: y :: l) ++ [k]))
    with (x ++ s ++ join s ((y :: l) ++ [k])).
  change (join s (x :: y :: l)) with (x ++ s ++ join s (y :: l)).
  rewrite IH by done. by rewrite <- !app_assoc.
Qed.

Lemma Path_of_well_formed (s : pystr) : well_formed (Path_of s).
Proof.
  unfold well_formed, Path_of.
  assert (Hroot : let rt := fst (splitroot s) in
                  rt = [] \/ rt = [sep] \/ rt = [sep; sep]).
  { unfold splitroot.
    destruct (negb (starts_with_sep s)); cbn; [auto|].
    destruct (_ || _); cbn; auto. }
  destruct (splitroot s) as [rt rel]. cbn in *. split; [exact Hroot|].
  apply List.Forall_forall. intros piece Hin.
  apply List.filter_In in Hin as [Hin Hk]. split; [done|].
  pose proof (proj1 (split_no_sep sep rel)) as Hall.
  rewrite List.Forall_forall in Hall. exact (Hall piece Hin).
Qed.

Lemma starts_with_sep_false (s : pystr) :
  ~ In sep s -> starts_with_sep s = false.
Proof.
  destruct s as [|c s]; cbn; [done|]. intros H.
  apply N.eqb_neq. intros ->. apply H. by left.
Qed.

Lemma starts_with_sep_app (s t : pystr) :
  s <> [] -> starts_with_sep (s ++ t) = starts_with_sep s.
Proof. by destruct s. Qed.

Lemma filter_kept_app (l : list pystr) (k : pystr) :
  Forall (fun piece => kept piece = true /\ ~ In sep piece) l ->
  List.filter kept (l ++ [k]) = l ++ List.filter kept [k].
Proof.
  intros Hall. rewrite List.filter_app. f_equal.
  induction Hall as [|x l [Hx _] _ IH]; cbn; [done|].
  by rewrite Hx, IH.
Qed.

Lemma kept_nonempty (x : pystr) : kept x = true -> x <> [].
Proof. by destruct x. Qed.

Lemma last_app_nonempty {A} (l m : list A) (d : A) :
  m <> [] -> List.last (l ++ m) d = List.last m d.
Proof.
  intros Hm. induction l as [|x l IH]; cbn; [done|].
  destruct (l ++ m) eqn:E; [|done].
  by apply app_eq_nil in E as [_ ->].
Qed.

Lemma last_no_sep (x : pystr) :
  x <> [] -> ~ In sep x -> List.last x 0%N <> sep.
Proof.
  intros Hne Hx Hl. apply Hx. rewrite <- Hl.
  clear Hx Hl. induction x as [|c x IH]; [done|].
  destruct x as [|d x]; [by left|]. right. by apply IH.
Qed.

Lemma join_last_no_sep (l : list pystr) :
  l <> [] ->
  Forall (fun piece => kept piece = true /\ ~ In sep piece) l ->
  join [sep] l <> [] /\ List.last (join [sep] l) 0%N <> sep.
Proof.
  intros Hne Hall. induction Hall as [|x l [Hk Hx] Hl IH]; [done|].
  apply kept_nonempty in Hk.
  destruct l as [|y l].
  - cbn. split; [done|]. by apply last_no_sep.
  - change (join [sep] (x :: y :: l)) with (x ++ [sep] ++ join [sep] (y :: l)).
    destruct IH as [IH1 IH2]; [done|]. split.
    + by destruct x.
    + rewrite !last_app_nonempty; [done|done|by destruct (join _ _)].
Qed.

Lemma Path_of_rooted (rt rel : pystr) :
  rt = [] \/ rt = [sep] \/ rt = [sep; sep] ->
  starts_with_sep rel = false ->
  Path_of (rt ++ rel) = mkPath rt (List.filter kept (split sep rel)).
Proof.
  intros Hrt Hrel. unfold Path_of, splitroot.
  destruct Hrt as [->|[->| ->]]; cbn [app List.tl starts_with_sep];
    rewrite ?N.eqb_refl, ?Hrel; reflexivity.
Qed.

Lemma Path_str_nonempty (p : Path) :
  root p ++ join [sep] (tail p) <> [] ->
  Path_str p = root p ++ join [sep] (tail p).
Proof. unfold Path_str. by destruct (root p ++ join [sep] (tail p)). Qed.

Lemma truthy_nonempty {A} (l : list A) : l <> [] -> truthy l = true.
Proof. by destruct l. Qed.

(** Joining a parsed path with a name that holds no separator adds that
    name as one component, or nothing when the name is empty or a dot. *)
Lemma truediv_component (p : Path) (key : pystr) :
  well_formed p -> ~ In sep key ->
  truediv p key = mkPath (root p) (tail p ++ List.filter kept [key]).
Proof.
  destruct p as [rt tl]. intros [Hroot Hall] Hkey. cbn [root tail] in *.
  unfold truediv, posix_join.
  rewrite (starts_with_sep_false key Hkey).
  destruct tl as [|t ts].
  - destruct Hroot as [->|[->| ->]].
    + change (Path_str (mkPath [] [])) with [46%N].
      cbn [truthy negb orb List.last].
      change ((46 =? sep)%N) with false. cbn iota.
      pose proof (Path_of_rooted [] ([46%N] ++ sep :: key)
                    (or_introl eq_refl) eq_refl) as H.
      rewrite split_cons_no_sep, split_one_piece in H; [exact H|done|].
      intros [E|[]]. discriminate E.
    + change (Path_str (mkPath [sep] [])) with [sep].
      cbn [truthy negb orb List.last]. rewrite N.eqb_refl.
      rewrite (Path_of_rooted [sep] key), split_one_piece;
        auto using starts_with_sep_false.
    + change (Path_str (mkPath [sep; sep] [])) with [sep; sep].
      cbn [truthy negb orb List.last]. rewrite N.eqb_refl.
      rewrite (Path_of_rooted [sep; sep] key), split_one_piece;
        auto using starts_with_sep_false.
  - destruct (join_last_no_sep (t :: ts)) as [Hj Hlast]; [done|done|].
    assert (Hs : rt ++ join [sep] (t :: ts) <> []).
    { intros E. by apply app_eq_nil in E as [_ E]. }
    rewrite Path_str_nonempty by exact Hs. cbn [root tail].
    rewrite truthy_nonempty by exact Hs.
    rewrite last_app_nonempty by done.
    apply N.eqb_neq in Hlast. rewrite Hlast. cbn [negb orb].
    rewrite <- app_assoc, <- join_snoc by done.
    assert (Hns : Forall (fun piece => ~ In sep piece) ((t :: ts) ++ [key])).
    { apply Forall_app. split; [|by constructor].
      eapply Forall_impl; [exact Hall|]. by intros ? [_ ?]. }
    rewrite Path_of_rooted; [|done|].
    + rewrite split_join; [|done|done]. by rewrite filter_kept_app.
    + inversion Hall as [|? ? [Hk Ht] _]; subst.
      apply kept_nonempty in Hk.
      change (join [sep] ((t :: ts) ++ [key]))
        with (join [sep] (t :: (ts ++ [key]))).
      destruct (ts ++ [key]) eqn:E; [by destruct ts|].
      change (join [sep] (t :: l :: l0)) with (t ++ [sep] ++ join [sep] (l :: l0)).
      rewrite starts_with_sep_app by done.
      by apply starts_with_sep_false.
Qed.

(** The path [_write_file] resolves is the directory of the executor with
    at most one component added, the base name of the requested file. *)
Lemma resolved_below_output_dir (dir : pystr) (wi : WriteFileInput) :
  let self := ActionExecutor_init dir in
  let base := name (Path_of (filename wi)) in
  resolved self wi
  = mkPath (root (output_dir self))
      (tail (output_dir self) ++ List.filter kept [base]).
Proof.
  intros self base. unfold resolved.
  apply truediv_component; [apply Path_of_well_formed|apply name_no_sep].
Qed.

(** C5. For a validated input, the directory components of the file name
    are stripped whatever the name is: the base name holds no separator
    and the resolved path is the directory of the executor followed by
    that one name; the write goes to that path and nowhere else; when the filesystem takes
    the write, the file at that path holds the UTF-8 bytes of the content,
    every other file is as before, the result is a success, and
    [metadata.size_bytes] is the number of those bytes. *)
Theorem write_file_base_name ext self input_data w wi :
  new_WriteFileInput ext input_data = Valid wi ->
  let p := Path_str (resolved self wi) in
  ~ In sep (name (Path_of (filename wi)))
  /\ (well_formed (output_dir self) ->
      resolved self wi
      = mkPath (root (output_dir self))
          (tail (output_dir self)
           ++ List.filter kept [name (Path_of (filename wi))]))
  /\ (exists w' r,
        execute ext self WRITE_FILE input_data w = (w', Return r)
        /\ exists evs,
             trace w' = evs ++ EvWrite p :: trace w
             /\ forall q, In (EvWrite q) evs -> q = p)
  /\ (forall bytes,
        open_fault ext (opened self wi w) p = None ->
        encode_utf8 (content wi) = Some bytes ->
        exists w' md,
          execute ext self WRITE_FILE input_data w
          = (w', Return (mkActionResult WRITE_FILE true
                           (PyStr (lit "File written successfully: " ++ p))
                           None (Some md)))
          /\ files w' !! p = Some bytes
          /\ (forall q, q <> p -> files w' !! q = files w !! q)
          /\ md !! "filepath"%string = Some (PyStr p)
          /\ md !! "size_bytes"%string
             = Some (PyInt (Z.of_nat (length bytes)))).
Proof.
  intros Hv p. split; [apply name_no_sep|]. split; [|split].
  - intros Hwf. apply truediv_component; [exact Hwf|apply name_no_sep].
  - unfold_py. rewrite Hv. cbn [fst snd]. fold (resolved self wi). fold p.
    repeat case_oracle.
    all: do 2 eexists; (split; [reflexivity|]); cbn [trace log set_file].
    all: first [ exists []; split; [reflexivity|]
               | eexists [_]; split; [reflexivity|] ].
    all: intros q Hq; fault_in Hq.
  - intros bytes Ho He. unfold opened in Ho. fold p in Ho.
    unfold_py. rewrite Hv. cbn [fst snd]. fold (resolved self wi). fold p.
    unfold log in *. rewrite Ho, He. cbn [fst snd set_file files trace].
    do 2 eexists. split; [reflexivity|].
    cbn [set_file files trace]. split; [|split; [|split]].
    + by rewrite lookup_insert_eq.
    + intros q Hq. by rewrite !lookup_insert_ne.
    + by rewrite lookup_insert_eq.
    + rewrite lookup_insert_ne by done. by rewrite lookup_singleton_eq.
Qed.

Lemma write_file_base_name_witness :
  name (Path_of (lit "../../secret.txt")) = lit "secret.txt"
  /\ exists w' md,
       execute (sample_ext [] (exited [] [] 0)) sandbox WRITE_FILE
         (write_file_params "../../secret.txt" "x") empty_world
       = (w', Return (mkActionResult WRITE_FILE true
                        (PyStr (lit "File written successfully: output/secret.txt"))
                        None (Some md)))
       /\ files w' !! lit "output/secret.txt" = Some [120%N]
       /\ (forall q, q <> lit "output/secret.txt" -> files w' !! q = None)
       /\ md !! "filepath"%string = Some (PyStr (lit "output/secret.txt"))
       /\ md !! "size_bytes"%string = Some (PyInt 1).
Proof.
  split; [reflexivity|].
  exact (proj2 (proj2 (proj2 (write_file_base_name
                  (sample_ext [] (exited [] [] 0)) sandbox
                  (write_file_params "../../secret.txt" "x") empty_world
                  (mkWriteFileInput (lit "../../secret.txt") (lit "x"))
                  eq_refl)))
           [120%N] eq_refl eq_refl).
Defined.

(** * Further properties of the executor *)

(** ** The handlers and the boundary *)

(** No handler lets a fault escape: each one returns a result, which is
    the result of [execute]; the [except] clause of [execute] is never
    taken for a known kind. *)
Theorem handlers_never_raise ext self action_type handler input_data w :
  handlers ext self action_type = Some handler ->
  exists w' r,
    handler input_data w = (w', Return r)
    /\ execute ext self action_type input_data w = (w', Return r).
Proof.
  destruct action_type; intros [= <-]; all_paths.
  all: do 2 eexists; split; reflexivity.
Qed.

Lemma handlers_never_raise_witness :
  exists w' r,
    _finish (sample_ext [] (exited [] [] 0)) ∅ empty_world = (w', Return r)
    /\ execute (sample_ext [] (exited [] [] 0)) sandbox FINISH ∅ empty_world
       = (w', Return r).
Proof.
  exact (handlers_never_raise (sample_ext [] (exited [] [] 0)) sandbox
           FINISH _ ∅ empty_world eq_refl).
Defined.

(** A parameter mapping that the schema constructor rejects has no effect
    on the outside world: no request is sent, no process is spawned, no
    file is opened; the result is the failure of the handler with the
    description of the validation error. *)
Theorem rejected_input_no_effect ext self input_data w :
  (forall m, new_SearchWebInput ext input_data = Invalid m ->
     execute ext self SEARCH_WEB input_data w
     = (log (EvRaise (mkFault Exception m)) w,
        Return (failure SEARCH_WEB (lit "Search failed: " ++ m))))
  /\ (forall m, new_RunCodeInput ext input_data = Invalid m ->
        execute ext self RUN_CODE input_data w
        = (log (EvRaise (mkFault Exception m)) w,
           Return (failure RUN_CODE (lit "Execution failed: " ++ m))))
  /\ (forall m, new_WriteFileInput ext input_data = Invalid m ->
        execute ext self WRITE_FILE input_data w
        = (log (EvRaise (mkFault Exception m)) w,
           Return (failure WRITE_FILE (lit "File write failed: " ++ m))))
  /\ (forall m, new_FinishInput ext input_data = Invalid m ->
        execute ext self FINISH input_data w
        = (log (EvRaise (mkFault Exception m)) w,
           Return (failure FINISH (lit "Finish action failed: " ++ m)))).
Proof.
  repeat split; intros m Hm; unfold_py; by rewrite Hm.
Qed.

Lemma rejected_input_no_effect_witness :
  execute (sample_ext [] (exited [] [] 0)) sandbox RUN_CODE
    {[ "code"%string := PyStr (lit "print(1)") ]} empty_world
  = (log (EvRaise (mkFault Exception
                     (lit "1 validation error for RunCodeInput")))
       empty_world,
     Return (failure RUN_CODE
               (lit "Execution failed: 1 validation error for RunCodeInput"))).
Proof.
  exact (proj1 (proj2 (rejected_input_no_effect
                  (sample_ext [] (exited [] [] 0)) sandbox
                  {[ "code"%string := PyStr (lit "print(1)") ]} empty_world))
           (lit "1 validation error for RunCodeInput") eq_refl).
Defined.

(** Outside RUN_CODE, whose child may write anywhere, [execute] touches
    at most one file: WRITE_FILE the path it resolves, the other kinds
    none, whether the call succeeds or fails. *)
Theorem execute_files_frame ext self action_type input_data w :
  action_type <> RUN_CODE ->
  exists w' r,
    execute ext self action_type input_data w = (w', Return r)
    /\ forall q,
         (action_type = WRITE_FILE ->
          forall wi, new_WriteFileInput ext input_data = Valid wi ->
                     q <> Path_str (resolved self wi)) ->
         files w' !! q = files w !! q.
Proof.
  intros Hk. destruct action_type; try done; all_paths.
  all: do 2 eexists; (split; [reflexivity|]); intros q Hq;
    cbn [files set_file]; try reflexivity.
  all: specialize (Hq eq_refl _ eq_refl); unfold resolved in Hq.
  all: cbn [files set_file log]; by rewrite ?lookup_insert_ne.
Qed.

Lemma execute_files_frame_witness :
  exists w' r,
    execute (sample_ext [] (exited [] [] 0)) sandbox WRITE_FILE
      (write_file_params "a/notes.txt" "hello")
      (set_file (lit "output/keep.txt") [1%N] empty_world)
    = (w', Return r)
    /\ files w' !! lit "output/keep.txt" = Some [1%N].
Proof.
  destruct (execute_files_frame (sample_ext [] (exited [] [] 0)) sandbox
              WRITE_FILE (write_file_params "a/notes.txt" "hello")
              (set_file (lit "output/keep.txt") [1%N] empty_world)
              ltac:(discriminate)) as (w' & r & Hrun & Hframe).
  exists w', r. split; [exact Hrun|].
  rewrite (Hframe (lit "output/keep.txt")); [reflexivity|].
  intros _ wi [= <-]. vm_compute. discriminate.
Defined.

(** ** SEARCH_WEB: the status check and the shape of a success *)

(** The answer of the provider is turned down exactly when its status is
    in 400..599: the result is then the failure that spells the status,
    the reason and the URL, and the page is not looked at.  Any other
    status, 2xx or not, is let through and the page is parsed. *)
Theorem search_web_status_check ext self input_data w si resp :
  new_SearchWebInput ext input_data = Valid si ->
  provider_answer ext si w = Return resp ->
  let told (what : string) :=
    str_of_int (status_code resp) ++ lit what ++ reason resp
    ++ lit " for url: " ++ resp_url resp in
  let turned_down (what : string) :=
    (log (EvRaise (mkFault Exception (told what))) (posted si w),
     Return (failure SEARCH_WEB (lit "Search failed: " ++ told what))) in
  (400 <= status_code resp < 500 ->
   execute ext self SEARCH_WEB input_data w = turned_down " Client Error: ")
  /\ (500 <= status_code resp < 600 ->
      execute ext self SEARCH_WEB input_data w = turned_down " Server Error: ")
  /\ (status_code resp < 400 \/ 600 <= status_code resp ->
      execute ext self SEARCH_WEB input_data w
      = (posted si w, Return (answered_result si (blocks ext resp)))).
Proof.
  intros Hv Hp told turned_down.
  split; [|split]; [| |by apply search_web_answered].
  all: intros Hs; unfold provider_answer, posted, search_url in *.
  all: unfold turned_down, told, execute, handlers, _search_web, construct,
         requests_post, try_except, bind, raise_for_status.
  all: rewrite Hv; cbn [ret fst snd]; unfold log in *; rewrite Hp.
  - replace (400 <=? status_code resp) with true by lia.
    replace (status_code resp <? 500) with true by lia. reflexivity.
  - replace (400 <=? status_code resp) with true by lia.
    replace (status_code resp <? 500) with false by lia.
    replace (500 <=? status_code resp) with true by lia.
    replace (status_code resp <? 600) with true by lia. reflexivity.
Qed.

Lemma search_web_status_check_witness :
  snd (execute not_found_ext sandbox SEARCH_WEB (search_params "rocq" 3)
         empty_world)
  = Return (failure SEARCH_WEB
      (lit "Search failed: 404 Client Error: Not Found for url: https://html.duckduckgo.com/html/")).
Proof.
  exact (f_equal snd
           (proj1 (search_web_status_check not_found_ext sandbox
                     (search_params "rocq" 3) empty_world
                     (mkSearchWebInput (lit "rocq") 3)
                     (mkResponse 404 (lit "Not Found") search_url (lit "<html>"))
                     eq_refl eq_refl)
              ltac:(split; [discriminate|reflexivity]))).
Defined.

(** A successful SEARCH_WEB result is consistent: the input was valid,
    one request was sent and nothing else happened, the output is a
    non-empty list of records, the metadata echo the query and count the
    records of the output, and that count never exceeds a non-negative
    [num_results]. *)
Theorem search_web_success_shape ext self input_data w w' r :
  execute ext self SEARCH_WEB input_data w = (w', Return r) ->
  success r = true ->
  exists si recs md,
    new_SearchWebInput ext input_data = Valid si
    /\ w' = posted si w
    /\ output r = PyList recs
    /\ metadata r = Some md
    /\ md !! "query"%string = Some (PyStr (query si))
    /\ md !! "num_results"%string = Some (PyInt (Z.of_nat (length recs)))
    /\ (1 <= length recs)%nat
    /\ (0 <= num_results si -> Z.of_nat (length recs) <= num_results si).
Proof.
  all_paths; intros [= <- <-]; cbn [success]; try discriminate.
  intros _. do 3 eexists. split; [reflexivity|].
  split; [reflexivity|]. split; [reflexivity|]. split; [reflexivity|].
  split; [by rewrite lookup_insert_eq|].
  split; [rewrite lookup_insert_ne by done; by rewrite lookup_singleton_eq|].
  match goal with H : search_loop _ = _ |- _ => rewrite <- H end.
  split.
  - match goal with H : search_loop _ = _ :: _ |- _ => rewrite H end.
    cbn. lia.
  - intros Hn. rewrite slice_to_nonneg by done.
    pose proof (search_loop_length
                  (firstn (Z.to_nat (num_results a))
                     (find_all_result ext (text a0)))) as Hlen.
    rewrite length_take in Hlen. lia.
Qed.

Lemma search_web_success_shape_witness :
  exists si recs md,
    validate_SearchWebInput (search_params "proof assistants" 3) = Valid si
    /\ posted (mkSearchWebInput (lit "proof assistants") 3) empty_world
       = posted si empty_world
    /\ PyList (omap result_record (firstn 3 page_five)) = PyList recs
    /\ Some ({[ "query"%string := PyStr (lit "proof assistants");
                "num_results"%string := PyInt 3 ]} : gmap string PyVal)
       = Some md
    /\ md !! "query"%string = Some (PyStr (query si))
    /\ md !! "num_results"%string = Some (PyInt (Z.of_nat (length recs)))
    /\ (1 <= length recs)%nat
    /\ (0 <= num_results si -> Z.of_nat (length recs) <= num_results si).
Proof.
  exact (search_web_success_shape (sample_ext page_five (exited [] [] 0))
           sandbox (search_params "proof assistants" 3) empty_world
           (posted (mkSearchWebInput (lit "proof assistants") 3) empty_world)
           (mkActionResult SEARCH_WEB true
              (PyList (omap result_record (firstn 3 page_five))) None
              (Some {[ "query"%string := PyStr (lit "proof assistants");
                       "num_results"%string := PyInt 3 ]}))
           eq_refl eq_refl).
Defined.

(** ** RUN_CODE: what the output looks like *)

Lemma lstrip_app_nonspace (a y : pystr) (c : N) :
  isspace c = false -> lstrip (a ++ c :: y) = lstrip a ++ c :: y.
Proof.
  intros Hc. induction a as [|d a IH]; cbn.
  - by rewrite Hc.
  - by destruct (isspace d).
Qed.

Lemma rstrip_app_nonspace (z b : pystr) (c : N) :
  isspace c = false -> rstrip (z ++ c :: b) = z ++ c :: rstrip b.
Proof.
  intros Hc. unfold rstrip. rewrite rev_app_distr. cbn [rev].
  rewrite <- app_assoc. cbn [app].
  rewrite lstrip_app_nonspace by done.
  rewrite rev_app_distr. cbn [rev]. rewrite rev_involutive.
  by rewrite <- app_assoc.
Qed.

(** Stripping keeps everything between two characters that are not white
    space. *)
Lemma strip_between (a m b : pystr) (c1 c2 : N) :
  isspace c1 = false -> isspace c2 = false ->
  strip (a ++ c1 :: m ++ c2 :: b) = lstrip a ++ c1 :: m ++ c2 :: rstrip b.
Proof.
  intros H1 H2. unfold strip. rewrite lstrip_app_nonspace by done.
  change (lstrip a ++ c1 :: m ++ c2 :: b)
    with (lstrip a ++ (c1 :: m) ++ c2 :: b).
  rewrite app_assoc, rstrip_app_nonspace by done.
  by rewrite <- app_assoc.
Qed.

Lemma strip_no_leading (s t : pystr) (c : N) :
  strip s = c :: t -> isspace c = false.
Proof.
  unfold strip. destruct (lstrip s) as [|c0 t0] eqn:Hs; [done|].
  apply lstrip_head in Hs.
  pose proof (rstrip_app_nonspace [] t0 c0 Hs) as Hr. cbn [app] in Hr.
  rewrite Hr. by intros [= <- _].
Qed.

Lemma strip_no_trailing (s t : pystr) (c : N) :
  strip s = t ++ [c] -> isspace c = false.
Proof.
  unfold strip, rstrip. intros H.
  apply (f_equal (@rev N)) in H. rewrite rev_involutive, rev_app_distr in H.
  exact (lstrip_head _ _ _ H).
Qed.

Lemma lstrip_fixed (s : pystr) :
  (forall c t, s = c :: t -> isspace c = false) -> lstrip s = s.
Proof.
  destruct s as [|c t]; [done|]. intros H. cbn. by rewrite (H c t eq_refl).
Qed.

(** Stripping twice is stripping once. *)
Lemma strip_idempotent (s : pystr) : strip (strip s) = strip s.
Proof.
  unfold strip at 1.
  rewrite (lstrip_fixed (strip s)) by (intros c t; apply strip_no_leading).
  unfold rstrip.
  rewrite (lstrip_fixed (rev (strip s))); [by rewrite rev_involutive|].
  intros c t H. apply (f_equal (@rev N)) in H.
  rewrite rev_involutive in H. cbn in H.
  by apply strip_no_trailing in H.
Qed.

Lemma lstrip_app_not_blank (a b : pystr) :
  forallb isspace a = false -> lstrip (a ++ b) = lstrip a ++ b.
Proof.
  induction a as [|c a IH]; cbn; [done|].
  destruct (isspace c); cbn; [exact IH|done].
Qed.

(** When the child wrote to standard error, the output is standard
    output followed by a newline, stripped on the left, then the tag
    [[stderr]:], then a space followed by standard error, stripped on the
    right.  The tag is always there.  When standard output is blank
    (empty or white space only) the output begins with the tag; otherwise
    it is standard output stripped on the left, a newline, and the
    tag. *)
Theorem run_code_stderr_tag ext self input_data w ci fs cp :
  new_RunCodeInput ext input_data = Valid ci ->
  child_outcome ext self ci w = (fs, Return cp) ->
  stderr cp <> [] ->
  exists w' r,
    execute ext self RUN_CODE input_data w = (w', Return r)
    /\ output r
       = PyStr (lstrip (stdout cp ++ [10%N]) ++ lit "[stderr]:"
                ++ rstrip (32%N :: stderr cp))
    /\ (forallb isspace (stdout cp) = true ->
        output r = PyStr (lit "[stderr]:" ++ rstrip (32%N :: stderr cp)))
    /\ (forallb isspace (stdout cp) = false ->
        output r
        = PyStr (lstrip (stdout cp) ++ [10%N] ++ lit "[stderr]:"
                 ++ rstrip (32%N :: stderr cp))).
Proof.
  intros Hv Hc He. do 2 eexists.
  split; [by apply run_code_completed|].
  assert (Hout : output (completed_result cp)
                 = PyStr (lstrip (stdout cp ++ [10%N]) ++ lit "[stderr]:"
                          ++ rstrip (32%N :: stderr cp))).
  { cbn [output completed_result]. unfold combined.
    rewrite (truthy_nonempty _ He).
    change (lit "[stderr]: ") with (91%N :: lit "stderr]" ++ 58%N :: [32%N]).
    change (lit "[stderr]:") with (91%N :: lit "stderr]" ++ [58%N]).
    replace (stdout cp ++ [10%N]
             ++ (91%N :: lit "stderr]" ++ 58%N :: [32%N]) ++ stderr cp)
      with ((stdout cp ++ [10%N])
            ++ 91%N :: lit "stderr]" ++ 58%N :: (32%N :: stderr cp))
      by (cbn; by rewrite <- !app_assoc).
    rewrite strip_between by done.
    rewrite truthy_nonempty by (by destruct (stdout cp ++ [10%N])).
    reflexivity. }
  split; [exact Hout|]. split.
  - intros Hblank. rewrite Hout.
    assert (Hl : lstrip (stdout cp ++ [10%N]) = []).
    { apply lstrip_nil_iff. rewrite forallb_app, Hblank. reflexivity. }
    by rewrite Hl.
  - intros Hink. rewrite Hout, lstrip_app_not_blank by done.
    by rewrite <- !app_assoc.
Qed.

Lemma run_code_stderr_tag_witness :
  exists w' r,
    execute (sample_ext [] (exited (lit " out") (lit "err") 1)) sandbox
      RUN_CODE (run_code_params "import sys; sys.exit(1)" 5) empty_world
    = (w', Return r)
    /\ output r = PyStr (lit "out" ++ [10%N] ++ lit "[stderr]: err").
Proof.
  destruct (run_code_stderr_tag
              (sample_ext [] (exited (lit " out") (lit "err") 1))
              sandbox (run_code_params "import sys; sys.exit(1)" 5)
              empty_world
              (mkRunCodeInput (lit "import sys; sys.exit(1)") 5) ∅
              (mkCompletedProcess (lit " out") (lit "err") 1)
              eq_refl eq_refl ltac:(discriminate))
    as (w' & r & Hrun & _ & _ & Hink).
  exists w', r. split; [exact Hrun|]. exact (Hink eq_refl).
Defined.

(** The output of a completed child is a text that is already stripped:
    it neither begins nor ends with white space. *)
Theorem run_code_output_stripped ext self input_data w ci fs cp :
  new_RunCodeInput ext input_data = Valid ci ->
  child_outcome ext self ci w = (fs, Return cp) ->
  exists w' r o,
    execute ext self RUN_CODE input_data w = (w', Return r)
    /\ output r = PyStr o
    /\ strip o = o
    /\ (forall c t, o = c :: t -> isspace c = false)
    /\ (forall t c, o = t ++ [c] -> isspace c = false).
Proof.
  intros Hv Hc. do 3 eexists.
  split; [by apply run_code_completed|].
  split; [reflexivity|].
  assert (Hfix : forall o : pystr, strip o = o ->
            (forall c t, o = c :: t -> isspace c = false)
            /\ (forall t c, o = t ++ [c] -> isspace c = false)).
  { intros o Ho. split; intros ? ? E; rewrite E in Ho.
    - by apply strip_no_leading in Ho.
    - by apply strip_no_trailing in Ho. }
  destruct (truthy (combined cp)).
  - split; [apply strip_idempotent|]. apply Hfix, strip_idempotent.
  - split; [reflexivity|]. by apply Hfix.
Qed.

Lemma run_code_output_stripped_witness :
  exists w' r o,
    execute (sample_ext [] (exited (lit "  hi " ++ [10%N]) [] 0)) sandbox
      RUN_CODE (run_code_params "print('  hi ')" 5) empty_world
    = (w', Return r)
    /\ output r = PyStr o
    /\ strip o = o
    /\ (forall c t, o = c :: t -> isspace c = false)
    /\ (forall t c, o = t ++ [c] -> isspace c = false).
Proof.
  exact (run_code_output_stripped
           (sample_ext [] (exited (lit "  hi " ++ [10%N]) [] 0)) sandbox
           (run_code_params "print('  hi ')" 5) empty_world
           (mkRunCodeInput (lit "print('  hi ')") 5) ∅
           (mkCompletedProcess (lit "  hi " ++ [10%N]) [] 0)
           eq_refl eq_refl).
Defined.

(** A child that fails without printing anything still gets the
    placeholder as output: the result is a failure with the exit code as
    error, and an output that reads [Code executed successfully]. *)
Theorem run_code_silent_failure ext self input_data w ci fs rc :
  new_RunCodeInput ext input_data = Valid ci ->
  child_outcome ext self ci w = (fs, Return (mkCompletedProcess [] [] rc)) ->
  rc <> 0 ->
  exists w' md,
    execute ext self RUN_CODE input_data w
    = (w', Return (mkActionResult RUN_CODE false
                     (PyStr (lit "Code executed successfully (no output)"))
                     (Some (lit "Exit code " ++ str_of_int rc)) md)).
Proof.
  intros Hv Hc Hrc. do 2 eexists.
  rewrite (run_code_completed _ _ _ _ _ _ _ Hv Hc).
  unfold completed_result. cbn [returncode combined stderr stdout truthy].
  apply Z.eqb_neq in Hrc. rewrite Hrc. reflexivity.
Qed.

Lemma run_code_silent_failure_witness :
  exists w' md,
    execute (sample_ext [] (exited [] [] 3)) sandbox RUN_CODE
      (run_code_params "import os; os._exit(3)" 5) empty_world
    = (w', Return (mkActionResult RUN_CODE false
                     (PyStr (lit "Code executed successfully (no output)"))
                     (Some (lit "Exit code 3")) md)).
Proof.
  exact (run_code_silent_failure (sample_ext [] (exited [] [] 3)) sandbox
           (run_code_params "import os; os._exit(3)" 5) empty_world
           (mkRunCodeInput (lit "import os; os._exit(3)") 5) ∅ 3
           eq_refl eq_refl ltac:(discriminate)).
Defined.

(** For a valid input [subprocess.run] is called exactly once, whatever
    comes of the call (a completed child, a time-out or another fault):
    with the interpreter, [-c] and the code as command line, the time-out
    of the input, and the directory of the executor as working
    directory; the executor itself requests nothing and opens no file,
    and the files afterwards are those the call left. *)
Theorem run_code_calls_subprocess_once ext self input_data w ci :
  new_RunCodeInput ext input_data = Valid ci ->
  exists w' r evs,
    execute ext self RUN_CODE input_data w = (w', Return r)
    /\ trace w'
       = evs ++ EvSpawn [sys_executable ext; lit "-c"; code ci] (timeout ci)
                  (Path_str (output_dir self)) :: trace w
    /\ (forall ev, In ev evs -> exists e, ev = EvRaise e)
    /\ files w' = fst (child_outcome ext self ci w).
Proof.
  intros Hv. unfold child_outcome, spawned, child_argv.
  unfold_py. rewrite Hv. cbn [fst snd]. unfold log.
  destruct (child ext _ _ _ _) as [fs [cp|[[|] d]]];
    cbn [fst snd exc_class trace files].
  all: do 3 eexists; (split; [reflexivity|]); cbn [trace files].
  all: split; [first [ exact (eq_refl : _ = [] ++ _)
                     | exact (eq_refl : _ = [_] ++ _) ]|].
  all: split; [|reflexivity].
  all: intros ev Hin; cbn in Hin; try done; destruct Hin as [<-|[]]; eauto.
Qed.

Lemma run_code_calls_subprocess_once_witness :
  exists w' r evs,
    execute (sample_ext [] timed_out) sandbox RUN_CODE
      (run_code_params "import time; time.sleep(5)" 1) empty_world
    = (w', Return r)
    /\ trace w'
       = evs ++ EvSpawn [lit "/usr/bin/python3"; lit "-c";
                         lit "import time; time.sleep(5)"] 1 (lit "output")
                :: []
    /\ (forall ev, In ev evs -> exists e, ev = EvRaise e)
    /\ files w' = ∅.
Proof.
  exact (run_code_calls_subprocess_once (sample_ext [] timed_out) sandbox
           (run_code_params "import time; time.sleep(5)" 1) empty_world
           (mkRunCodeInput (lit "import time; time.sleep(5)") 1) eq_refl).
Defined.

(** ** WRITE_FILE: where the file goes and what it holds *)

Lemma split_app_sep (c : N) (d x : pystr) :
  split c (d ++ c :: x) = split c d ++ split c x.
Proof.
  induction d as [|e d IH]; cbn.
  - by rewrite N.eqb_refl.
  - destruct (e =? c)%N; [by rewrite IH|].
    rewrite IH. destruct (split c d) as [|p ps] eqn:E; [|done].
    by destruct (split_no_sep c d) as [_ Hne].
Qed.

Lemma filter_kept_splitroot (s : pystr) :
  List.filter kept (split sep (snd (splitroot s)))
  = List.filter kept (split sep s).
Proof.
  unfold splitroot. destruct s as [|a s]; [done|].
  cbn [starts_with_sep List.tl].
  destruct (a =? sep)%N eqn:Ha; cbn [negb]; [|done].
  apply N.eqb_eq in Ha as ->.
  destruct s as [|b s]; cbn [starts_with_sep List.tl negb orb snd].
  - reflexivity.
  - destruct (b =? sep)%N eqn:Hb; cbn [negb orb].
    + apply N.eqb_eq in Hb as ->.
      destruct (starts_with_sep s); reflexivity.
    + cbn [snd]. change (sep :: b :: s) with ([] ++ sep :: b :: s).
      by rewrite split_app_sep.
Qed.

(** The base name of a path is its last kept piece, whatever its root. *)
Lemma name_last_piece (s : pystr) :
  name (Path_of s) = List.last (List.filter kept (split sep s)) [].
Proof.
  unfold name, Path_of.
  pose proof (filter_kept_splitroot s) as H.
  destruct (splitroot s) as [rt rel]. cbn [tail snd] in *. by rewrite H.
Qed.

(** Whatever comes before the last separator of the requested name, be it
    [..] components, an absolute path or anything else, has no influence
    on where the file goes: the base name is what follows that separator,
    and the resolved path is the directory of the executor followed by
    that base name. *)
Theorem write_file_ignores_directories (dir d base c : pystr) :
  ~ In sep base -> kept base = true ->
  let self := ActionExecutor_init dir in
  name (Path_of (d ++ sep :: base)) = base
  /\ name (Path_of base) = base
  /\ resolved self (mkWriteFileInput (d ++ sep :: base) c)
     = mkPath (root (output_dir self)) (tail (output_dir self) ++ [base])
  /\ resolved self (mkWriteFileInput (d ++ sep :: base) c)
     = resolved self (mkWriteFileInput base c).
Proof.
  intros Hb Hk self.
  assert (H1 : name (Path_of (d ++ sep :: base)) = base).
  { rewrite name_last_piece, split_app_sep.
    rewrite (split_one_piece sep base Hb).
    rewrite List.filter_app. cbn [List.filter]. rewrite Hk.
    apply List.last_last. }
  assert (H2 : name (Path_of base) = base).
  { rewrite name_last_piece. rewrite (split_one_piece sep base Hb).
    cbn [List.filter]. by rewrite Hk. }
  split; [exact H1|]. split; [exact H2|].
  unfold resolved. cbn [filename]. rewrite H1, H2. split; [|reflexivity].
  rewrite truediv_component; [|apply Path_of_well_formed|done].
  cbn [List.filter]. by rewrite Hk.
Qed.

Lemma write_file_ignores_directories_witness :
  name (Path_of (lit "/etc/../../root/.ssh/authorized_keys"))
  = lit "authorized_keys"
  /\ resolved (ActionExecutor_init (lit "./output"))
       (mkWriteFileInput (lit "/etc/../../root/.ssh/authorized_keys") (lit "k"))
     = mkPath [] [lit "output"; lit "authorized_keys"].
Proof.
  pose proof (write_file_ignores_directories (lit "./output")
                (lit "/etc/../../root/.ssh") (lit "authorized_keys") (lit "k")
                ltac:(vm_compute; intuition discriminate) eq_refl)
    as (H1 & _ & H3 & _).
  split; [exact H1|exact H3].
Defined.

(** Parsing the text of a parsed path gives the path back: the
    [filepath] that WRITE_FILE reports denotes the path it wrote to. *)
Theorem Path_of_str_round_trip (s : pystr) :
  Path_of (Path_str (Path_of s)) = Path_of s.
Proof.
  pose proof (Path_of_well_formed s) as [Hroot Hall].
  destruct (Path_of s) as [rt tl]. cbn [root tail] in *.
  destruct tl as [|t ts].
  - destruct Hroot as [->|[->| ->]]; reflexivity.
  - destruct (join_last_no_sep (t :: ts)) as [Hj _]; [done|done|].
    rewrite Path_str_nonempty; cbn [root tail].
    + rewrite Path_of_rooted; [|done|].
      * rewrite split_join; [|done|].
        -- f_equal. clear -Hall.
           induction Hall as [|x l [Hx _] _ IH]; cbn; [done|].
           by rewrite Hx, IH.
        -- eapply Forall_impl; [exact Hall|]. by intros ? [_ ?].
      * inversion Hall as [|? ? [Hk Ht] _]; subst.
        apply kept_nonempty in Hk.
        destruct ts as [|u ts].
        -- by apply starts_with_sep_false.
        -- change (join [sep] (t :: u :: ts))
             with (t ++ [sep] ++ join [sep] (u :: ts)).
           rewrite starts_with_sep_app by done.
           by apply starts_with_sep_false.
    + intros E. by apply app_eq_nil in E as [_ E].
Qed.

(** What [_write_file] leaves when the filesystem takes the write. *)
Lemma write_file_written ext self input_data w wi bytes :
  new_WriteFileInput ext input_data = Valid wi ->
  let p := Path_str (resolved self wi) in
  open_fault ext (opened self wi w) p = None ->
  encode_utf8 (content wi) = Some bytes ->
  exists r,
    execute ext self WRITE_FILE input_data w
    = (mkWorld (<[p := bytes]> (files w)) (EvWrite p :: trace w), Return r)
    /\ success r = true.
Proof.
  intros Hv p Ho He. unfold opened in Ho. fold p in Ho.
  unfold_py. rewrite Hv. cbn [fst snd]. fold (resolved self wi). fold p.
  unfold log in *. rewrite Ho, He. cbn [fst snd]. unfold set_file.
  cbn [files trace]. rewrite insert_insert_eq. eexists. split; reflexivity.
Qed.

(** Writing is overwriting: of two successive writes under names with the
    same base name, the file holds the content of the second, and writing
    the same content twice leaves the files as the first write left
    them. *)
Theorem write_file_overwrites ext self d1 d2 w wi1 wi2 b1 b2 :
  new_WriteFileInput ext d1 = Valid wi1 ->
  new_WriteFileInput ext d2 = Valid wi2 ->
  name (Path_of (filename wi1)) = name (Path_of (filename wi2)) ->
  let p := Path_str (resolved self wi1) in
  let w1 := fst (execute ext self WRITE_FILE d1 w) in
  let w2 := fst (execute ext self WRITE_FILE d2 w1) in
  open_fault ext (opened self wi1 w) p = None ->
  encode_utf8 (content wi1) = Some b1 ->
  open_fault ext (opened self wi2 w1) p = None ->
  encode_utf8 (content wi2) = Some b2 ->
  files w2 = <[p := b2]> (files w)
  /\ files w2 !! p = Some b2
  /\ (content wi1 = content wi2 -> files w2 = files w1).
Proof.
  intros Hv1 Hv2 Hn p w1 w2 Ho1 He1 Ho2 He2.
  assert (Hp : Path_str (resolved self wi2) = p).
  { unfold p, resolved. by rewrite Hn. }
  destruct (write_file_written ext self d1 w wi1 b1 Hv1 Ho1 He1)
    as (r1 & Hr1 & _).
  assert (Hw1 : files w1 = <[p := b1]> (files w)).
  { unfold w1. by rewrite Hr1. }
  rewrite <- Hp in Ho2.
  destruct (write_file_written ext self d2 w1 wi2 b2 Hv2 Ho2 He2)
    as (r2 & Hr2 & _).
  assert (Hw2 : files w2 = <[p := b2]> (files w)).
  { unfold w2. rewrite Hr2. cbn [fst files]. rewrite Hp, Hw1.
    apply insert_insert_eq. }
  split; [exact Hw2|]. split; [by rewrite Hw2, lookup_insert_eq|].
  intros Hc. rewrite Hw2, Hw1. rewrite Hc, He2 in He1. by injection He1 as ->.
Qed.

Lemma write_file_overwrites_witness :
  let ext := sample_ext [] (exited [] [] 0) in
  let w1 := fst (execute ext sandbox WRITE_FILE
                   (write_file_params "a/notes.txt" "one") empty_world) in
  let w2 := fst (execute ext sandbox WRITE_FILE
                   (write_file_params "b/notes.txt" "two") w1) in
  files w2 !! lit "output/notes.txt" = Some (lit "two").
Proof.
  intros ext w1 w2.
  exact (proj1 (proj2 (write_file_overwrites ext sandbox
           (write_file_params "a/notes.txt" "one")
           (write_file_params "b/notes.txt" "two") empty_world
           (mkWriteFileInput (lit "a/notes.txt") (lit "one"))
           (mkWriteFileInput (lit "b/notes.txt") (lit "two"))
           (lit "one") (lit "two")
           eq_refl eq_refl eq_refl eq_refl eq_refl eq_refl eq_refl))).
Defined.

(** *** The size of the encoded content *)

Lemma utf8_char_bytes (c : N) (b : list N) :
  utf8_char c = Some b ->
  (1 <= length b <= 4)%nat
  /\ Forall (fun x => (x < 256)%N) b
  /\ ((c < 128)%N -> b = [c]).
Proof.
  unfold utf8_char.
  destruct (c <? 128)%N eqn:H1.
  { intros [= <-]. apply N.ltb_lt in H1.
    repeat split; cbn; try lia. repeat constructor. lia. }
  apply N.ltb_ge in H1.
  destruct (c <? 2048)%N eqn:H2.
  { intros [= <-]. apply N.ltb_lt in H2.
    repeat split; cbn; try lia.
    repeat constructor.
    - pose proof (N.Div0.div_lt_upper_bound c 64 32). lia.
    - pose proof (N.mod_lt c 64). lia. }
  destruct ((55296 <=? c) && (c <=? 57343))%N; [discriminate|].
  destruct (c <? 65536)%N eqn:H3.
  { intros [= <-]. apply N.ltb_lt in H3.
    repeat split; cbn; try lia.
    repeat constructor.
    - pose proof (N.Div0.div_lt_upper_bound c 4096 16). lia.
    - pose proof (N.mod_lt (c / 64) 64). lia.
    - pose proof (N.mod_lt c 64). lia. }
  destruct (c <? 1114112)%N eqn:H4; [|discriminate].
  intros [= <-]. apply N.ltb_lt in H4.
  repeat split; cbn; try lia.
  repeat constructor.
  - pose proof (N.Div0.div_lt_upper_bound c 262144 5). lia.
  - pose proof (N.mod_lt (c / 4096) 64). lia.
  - pose proof (N.mod_lt (c / 64) 64). lia.
  - pose proof (N.mod_lt c 64). lia.
Qed.

Lemma encode_utf8_bytes (s b : pystr) :
  encode_utf8 s = Some b ->
  (length s <= length b <= 4 * length s)%nat
  /\ Forall (fun x => (x < 256)%N) b
  /\ (Forall (fun c => (c < 128)%N) s -> b = s).
Proof.
  revert b. induction s as [|c s IH]; intros b; cbn.
  - intros [= <-]. repeat split; cbn; try lia; constructor.
  - destruct (utf8_char c) as [bc|] eqn:Hc; [|discriminate].
    destruct (encode_utf8 s) as [bs|]; [|discriminate].
    intros [= <-].
    destruct (utf8_char_bytes c bc Hc) as ((Hl1 & Hl2) & Hb & Ha).
    destruct (IH bs eq_refl) as ((Hs1 & Hs2) & Hbs & Has).
    rewrite length_app. repeat split; try lia.
    + apply Forall_app. by split.
    + intros Hall. inversion Hall as [|? ? Hc128 Hs128]; subst.
      by rewrite (Ha Hc128), (Has Hs128).
Qed.

Lemma encode_utf8_scalar (s : pystr) :
  is_Some (encode_utf8 s) <-> forallb scalar s = true.
Proof.
  induction s as [|c s IH]; cbn.
  - split; [done|]. by eexists.
  - assert (Hc : is_Some (utf8_char c) <-> scalar c = true).
    { unfold utf8_char, scalar.
      destruct (c <? 128)%N eqn:H1, (c <? 2048)%N eqn:H2,
        (55296 <=? c)%N eqn:H3, (c <=? 57343)%N eqn:H4,
        (c <? 65536)%N eqn:H5, (c <? 1114112)%N eqn:H6,
        (c <? 55296)%N eqn:H7, (57343 <? c)%N eqn:H8;
        cbn; split; intros H; try done; try (by eexists);
        try (by destruct H); exfalso;
        repeat match goal with
               | H : (_ <? _)%N = true |- _ => apply N.ltb_lt in H
               | H : (_ <? _)%N = false |- _ => apply N.ltb_ge in H
               | H : (_ <=? _)%N = true |- _ => apply N.leb_le in H
               | H : (_ <=? _)%N = false |- _ => apply N.leb_gt in H
               end; lia. }
    destruct (utf8_char c) as [bc|]; destruct (encode_utf8 s) as [bs|];
      rewrite andb_true_iff, <- Hc, <- IH; split;
      try (intros [? ?]); try (intros [[? ?] [? ?]]); try done; eauto.
Qed.

(** A successful WRITE_FILE result is consistent: the input was valid,
    the file at the resolved path holds the UTF-8 bytes of the content,
    the metadata give that path and the number of those bytes, which lies
    between the number of characters of the content and four times that
    number, and is the number of characters when the content is ASCII. *)
Theorem write_file_success_shape ext self input_data w w' r :
  execute ext self WRITE_FILE input_data w = (w', Return r) ->
  success r = true ->
  exists wi bytes md,
    new_WriteFileInput ext input_data = Valid wi
    /\ encode_utf8 (content wi) = Some bytes
    /\ files w' !! Path_str (resolved self wi) = Some bytes
    /\ output r
       = PyStr (lit "File written successfully: "
                ++ Path_str (resolved self wi))
    /\ metadata r = Some md
    /\ md !! "filepath"%string = Some (PyStr (Path_str (resolved self wi)))
    /\ md !! "size_bytes"%string = Some (PyInt (Z.of_nat (length bytes)))
    /\ (length (content wi) <= length bytes <= 4 * length (content wi))%nat
    /\ Forall (fun x => (x < 256)%N) bytes
    /\ (Forall (fun c => (c < 128)%N) (content wi) -> bytes = content wi).
Proof.
  all_paths; intros [= <- <-]; cbn [success]; try discriminate.
  intros _.
  match goal with H : encode_utf8 _ = Some ?b |- _ =>
    destruct (encode_utf8_bytes _ _ H) as (Hlen & Hbytes & Hascii);
    exists a, b
  end.
  eexists. split; [reflexivity|]. split; [done|].
  cbn [files set_file output metadata]. unfold resolved.
  split; [by rewrite lookup_insert_eq|]. split; [reflexivity|].
  split; [reflexivity|]. split; [by rewrite lookup_insert_eq|].
  split; [rewrite lookup_insert_ne by done; by rewrite lookup_singleton_eq|].
  done.
Qed.

Lemma write_file_success_shape_witness :
  exists wi bytes (md : gmap string PyVal),
    validate_WriteFileInput cafe_params = Valid wi
    /\ encode_utf8 (content wi) = Some bytes
    /\ bytes = [99%N; 97%N; 102%N; 195%N; 169%N]
    /\ md !! "size_bytes"%string = Some (PyInt 5).
Proof.
  pose (run := execute (sample_ext [] (exited [] [] 0)) sandbox WRITE_FILE
                 cafe_params empty_world).
  destruct (write_file_success_shape (sample_ext [] (exited [] [] 0)) sandbox
              cafe_params empty_world (fst run) (result_of run)
              ltac:(vm_compute; reflexivity) ltac:(vm_compute; reflexivity))
    as (wi & bytes & md & Hv & He & _ & _ & _ & _ & Hmd & _).
  exists wi, bytes, md.
  injection Hv as <-. injection He as <-.
  repeat split. exact Hmd.
Defined.

(** A content that UTF-8 cannot encode (a lone surrogate) makes the write
    fail after the file has been opened: the result is a failure and the
    file at the resolved path is left empty, whatever it held before. *)
Theorem write_file_unencodable ext self input_data w wi :
  new_WriteFileInput ext input_data = Valid wi ->
  let p := Path_str (resolved self wi) in
  open_fault ext (opened self wi w) p = None ->
  forallb scalar (content wi) = false ->
  exists w' msg,
    execute ext self WRITE_FILE input_data w
    = (w', Return (failure WRITE_FILE (lit "File write failed: " ++ msg)))
    /\ files w' !! p = Some []
    /\ forall q, q <> p -> files w' !! q = files w !! q.
Proof.
  intros Hv p Ho Hs. unfold opened in Ho. fold p in Ho.
  assert (He : encode_utf8 (content wi) = None).
  { destruct (encode_utf8 (content wi)) eqn:E; [|done].
    assert (is_Some (encode_utf8 (content wi))) as Hsome by (by eexists).
    apply encode_utf8_scalar in Hsome. by rewrite Hsome in Hs. }
  unfold_py. rewrite Hv. cbn [fst snd]. fold (resolved self wi). fold p.
  unfold log in *. rewrite Ho, He. cbn [fst snd exc_str].
  do 2 eexists. split; [reflexivity|]. unfold set_file. cbn [files].
  split; [by rewrite lookup_insert_eq|].
  intros q Hq. by rewrite lookup_insert_ne.
Qed.

Lemma write_file_unencodable_witness :
  exists w' msg,
    execute (sample_ext [] (exited [] [] 0)) sandbox WRITE_FILE
      {[ "filename"%string := PyStr (lit "notes.txt");
         "content"%string := PyStr [104%N; 55296%N] ]}
      (set_file (lit "output/notes.txt") (lit "old") empty_world)
    = (w', Return (failure WRITE_FILE (lit "File write failed: " ++ msg)))
    /\ files w' !! lit "output/notes.txt" = Some []
    /\ forall q, q <> lit "output/notes.txt" ->
                 files w' !! q
                 = files (set_file (lit "output/notes.txt") (lit "old")
                            empty_world) !! q.
Proof.
  exact (write_file_unencodable (sample_ext [] (exited [] [] 0)) sandbox
           {[ "filename"%string := PyStr (lit "notes.txt");
              "content"%string := PyStr [104%N; 55296%N] ]}
           (set_file (lit "output/notes.txt") (lit "old") empty_world)
           (mkWriteFileInput (lit "notes.txt") [104%N; 55296%N])
           eq_refl eq_refl eq_refl).
Defined.

(** ** SEARCH_WEB: the texts of a record *)

Lemma strip_fixed_iff (o : pystr) :
  strip o = o
  <-> (forall c t, o = c :: t -> isspace c = false)
      /\ (o <> [] -> isspace (List.last o 0%N) = false).
Proof.
  split.
  - intros Ho. split.
    + intros c t E. rewrite E in Ho. by apply strip_no_leading in Ho.
    + intros Hne. destruct (exists_last Hne) as (t & c & E).
      rewrite E in Ho. rewrite E, List.last_last.
      by apply strip_no_trailing in Ho.
  - intros [Hl Ht]. unfold strip. rewrite (lstrip_fixed o Hl).
    unfold rstrip. rewrite lstrip_fixed; [apply rev_involutive|].
    intros c t E. apply (f_equal (@rev N)) in E.
    rewrite rev_involutive in E. cbn in E.
    assert (Hne : o <> []) by (rewrite E; by destruct (rev t)).
    specialize (Ht Hne). by rewrite E, List.last_last in Ht.
Qed.

Lemma concat_stripped (l : list pystr) :
  Forall (fun x => x <> [] /\ strip x = x) l -> strip (concat l) = concat l.
Proof.
  intros Hall. apply strip_fixed_iff. split.
  - destruct Hall as [|x l [Hx Hs] _]; [done|].
    apply strip_fixed_iff in Hs as [Hl _].
    destruct x as [|c0 x]; [done|]. cbn. intros c t [= <- _].
    by apply (Hl c0 x).
  - induction Hall as [|x l [Hx Hs] _ IH]; [done|].
    intros _. cbn [concat].
    destruct (concat l) as [|c t] eqn:E.
    + rewrite app_nil_r. by apply strip_fixed_iff in Hs as [_ Ht]; apply Ht.
    + rewrite last_app_nonempty by done. by apply IH.
Qed.

Lemma get_text_stripped (elem : Tag) : strip (get_text elem) = get_text elem.
Proof.
  unfold get_text. apply concat_stripped.
  apply List.Forall_forall. intros x Hin.
  apply List.filter_In in Hin as [Hin Hx].
  apply List.in_map_iff in Hin as (y & <- & _).
  split; [by destruct (strip y)|apply strip_idempotent].
Qed.

Lemma result_record_stripped (d : ResultDiv) (rec : PyVal) :
  result_record d = Some rec -> record_stripped rec.
Proof.
  unfold result_record.
  destruct (result__a d) as [link|]; [|discriminate].
  intros [= <-]. do 3 eexists. split; [reflexivity|].
  split; [apply get_text_stripped|].
  destruct (result__snippet d); [apply get_text_stripped|reflexivity].
Qed.

Lemma search_loop_stripped (divs : list ResultDiv) :
  Forall record_stripped (search_loop divs).
Proof.
  rewrite search_loop_omap.
  induction divs as [|d divs IH]; cbn; [constructor|].
  destruct (result_record d) as [rec|] eqn:Hd; [|exact IH].
  constructor; [by apply (result_record_stripped d)|exact IH].
Qed.

(** Every record of a successful SEARCH_WEB result has the three fields
    title, url and snippet, and its title and snippet are stripped texts:
    they neither begin nor end with white space, whatever the markup of
    the page. *)
Theorem search_web_records_stripped ext self input_data w w' r :
  execute ext self SEARCH_WEB input_data w = (w', Return r) ->
  success r = true ->
  exists recs, output r = PyList recs /\ Forall record_stripped recs.
Proof.
  all_paths; intros [= <- <-]; cbn [success]; try discriminate.
  intros _. eexists. split; [reflexivity|].
  match goal with H : search_loop _ = _ |- _ => rewrite <- H end.
  apply search_loop_stripped.
Qed.

Lemma search_web_records_stripped_witness :
  exists recs,
    PyList [PyDict [("title"%string, PyStr (lit "RocqProver"));
                    ("url"%string, PyStr (lit "https://rocq-prover.org"));
                    ("snippet"%string, PyStr (lit "a proof assistant"))]]
    = PyList recs
    /\ Forall record_stripped recs.
Proof.
  pose (run := execute (sample_ext page_markup (exited [] [] 0)) sandbox
                 SEARCH_WEB (search_params "rocq" 3) empty_world).
  exact (search_web_records_stripped
           (sample_ext page_markup (exited [] [] 0)) sandbox
           (search_params "rocq" 3) empty_world (fst run) (result_of run)
           ltac:(vm_compute; reflexivity) ltac:(vm_compute; reflexivity)).
Defined.

(** ** FINISH *)

Lemma texts_map_PyStr (l : list pystr) : texts (map PyStr l) = Some l.
Proof. induction l as [|x l IH]; cbn; [done|]. by rewrite IH. Qed.

(** FINISH with a valid input touches nothing outside: the world is left
    as it was, trace included; the output echoes the summary and the
    artifacts, from which the list of the input is read back unchanged,
    in the same order; the metadata flag the completion. *)
Theorem finish_echo ext self input_data w fi :
  new_FinishInput ext input_data = Valid fi ->
  exists arts,
    execute ext self FINISH input_data w
    = (w, Return (mkActionResult FINISH true
                    (PyDict [("summary"%string, PyStr (summary fi));
                             ("artifacts"%string, PyList arts)])
                    None (Some {[ "completed"%string := PyBool true ]})))
    /\ texts arts = Some (artifacts fi)
    /\ length arts = length (artifacts fi).
Proof.
  intros Hv. exists (map PyStr (artifacts fi)).
  split; [unfold_py; by rewrite Hv|].
  split; [apply texts_map_PyStr|apply length_map].
Qed.

Lemma finish_echo_witness :
  exists arts,
    execute (sample_ext [] (exited [] [] 0)) sandbox FINISH finish_params
      empty_world
    = (empty_world,
       Return (mkActionResult FINISH true
                 (PyDict [("summary"%string, PyStr (lit "done"));
                          ("artifacts"%string, PyList arts)])
                 None (Some {[ "completed"%string := PyBool true ]})))
    /\ texts arts = Some [lit "report.md"; lit "plot.png"]
    /\ length arts = 2%nat.
Proof.
  exact (finish_echo (sample_ext [] (exited [] [] 0)) sandbox finish_params
           empty_world
           (mkFinishInput (lit "done") [lit "report.md"; lit "plot.png"])
           eq_refl).
Defined.
